(** * Halving-cycle analysis of [src/app/page.tsx]

    A shallow embedding of [analyzeHalvingCycles] and [getFilteredData],
    and the properties the specification states about them.

    - A JavaScript [number] holding a price is a binary64 value: Rocq's
      primitive [float], whose operations are the IEEE-754 ones.
    - A JavaScript [number] holding a timestamp is an integer count of
      milliseconds; it is modelled as [Z].  Sums and differences of such
      integers are exact on binary64 below [2^53], and for [|n| < 2^53]
      the rounded quotient [n / 86400000] never reaches the next integer,
      so [Math.floor] of it is [Z.div].
    - [new Date(s).getTime()] is a function of the runtime: it is a
      parameter [getTime], with [None] standing for the [NaN] of an
      invalid date.  [Date.now()] is the parameter [now]: one reading for
      the synchronous pass. *)

From Stdlib Require Import ZArith Zpower List Sorted String Ascii Bool Lia Floats.
Import ListNotations.

Local Open Scope Z_scope.

(* ================================================================== *)
(** * JavaScript values *)

Module JS.

(** [a > b] and [a >= b] on numbers: false as soon as one side is NaN. *)
Definition gtb (a b : float) : bool := PrimFloat.ltb b a.
Definition geb (a b : float) : bool := PrimFloat.leb b a.

(** Truthiness of a number: [0], [-0] and [NaN] are falsy. *)
Definition truthy (x : float) : bool := negb (is_zero x || is_nan x).

(** Truthiness of a string: only the empty string is falsy. *)
Definition truthy_str (s : string) : bool :=
  match s with EmptyString => false | String _ _ => true end.

(** Truthiness of [string | null]. *)
Definition truthy_ostr (s : option string) : bool :=
  match s with None => false | Some s => truthy_str s end.

(** [x || d] on numbers. *)
Definition or_num (x : option float) (d : float) : float :=
  match x with
  | Some v => if truthy v then v else d
  | None => d
  end.

(** [s || d] on strings. *)
Definition or_str (s : option string) (d : string) : string :=
  match s with
  | Some v => if truthy_str v then v else d
  | None => d
  end.

(** [Math.min] over timestamps, [None] being NaN: NaN is absorbing. *)
Definition min2 (a b : option Z) : option Z :=
  match a, b with
  | Some x, Some y => Some (Z.min x y)
  | _, _ => None
  end.

(** [Number.isFinite]. *)
Definition isFinite (x : float) : bool := is_finite x.

End JS.

(** The data model of the specification: a price is a positive real. *)
Definition positive_price (p : float) : bool :=
  (PrimFloat.ltb 0 p && PrimFloat.ltb p infinity)%bool.

(* ================================================================== *)
(** * An order-preserving key for binary64 values

    Every value other than NaN is sent to a triple of integers whose
    lexicographic order is the order of the floats. *)

Definition key := (Z * Z * Z)%type.

Definition sf_key (x : spec_float) : option key :=
  match x with
  | S754_nan => None
  | S754_zero _ => Some (0, 0, 0)
  | S754_infinity true => Some (-2, 0, 0)
  | S754_infinity false => Some (2, 0, 0)
  | S754_finite true m e => Some (-1, - e, Z.neg m)
  | S754_finite false m e => Some (1, e, Z.pos m)
  end.

Definition fkey (x : float) : option key := sf_key (Prim2SF x).

Definition key_cmp (a b : key) : comparison :=
  let '(a1, a2, a3) := a in
  let '(b1, b2, b3) := b in
  match a1 ?= b1 with
  | Eq => match a2 ?= b2 with
          | Eq => a3 ?= b3
          | c => c
          end
  | c => c
  end.

Definition key_lt (a b : key) : Prop :=
  let '(a1, a2, a3) := a in
  let '(b1, b2, b3) := b in
  a1 < b1 \/ (a1 = b1 /\ (a2 < b2 \/ (a2 = b2 /\ a3 < b3))).

Definition key_le (a b : key) : Prop := key_lt a b \/ a = b.

(** The order of two floats as a proposition over their keys. *)
Definition flt (a b : float) : Prop :=
  exists ka kb, fkey a = Some ka /\ fkey b = Some kb /\ key_lt ka kb.

Definition fle (a b : float) : Prop :=
  exists ka kb, fkey a = Some ka /\ fkey b = Some kb /\ key_le ka kb.

(* ================================================================== *)
(** * Dates *)

Definition DAY : Z := 24 * 60 * 60 * 1000.

Module IsoDate.

Definition digit (c : ascii) : option Z :=
  let n := Z.of_nat (nat_of_ascii c) in
  if (48 <=? n) && (n <=? 57) then Some (n - 48) else None.

Fixpoint number (acc : Z) (cs : list ascii) : option Z :=
  match cs with
  | [] => Some acc
  | c :: cs' =>
      match digit c with
      | Some d => number (10 * acc + d) cs'
      | None => None
      end
  end.

Definition leap (y : Z) : bool :=
  ((y mod 4 =? 0) && negb (y mod 100 =? 0)) || (y mod 400 =? 0).

Definition days_in_month (y m : Z) : Z :=
  if m =? 2 then (if leap y then 29 else 28)
  else if (m =? 4) || (m =? 6) || (m =? 9) || (m =? 11) then 30
  else 31.

(** Days from 1970-01-01 to the civil date [y-m-d] (proleptic Gregorian). *)
Definition days_from_civil (y m d : Z) : Z :=
  let y' := if m <=? 2 then y - 1 else y in
  let era := y' / 400 in
  let yoe := y' - era * 400 in
  let mp := if 2 <? m then m - 3 else m + 9 in
  let doy := (153 * mp + 2) / 5 + d - 1 in
  let doe := yoe * 365 + yoe / 4 - yoe / 100 + doy in
  era * 146097 + doe - 719468.

(** The time value of a date-only ISO string [YYYY-MM-DD]: midnight UTC
    of that day.  Every other string is left undefined here. *)
Definition parse (s : string) : option Z :=
  match list_ascii_of_string s with
  | [y1; y2; y3; y4; "-"%char; m1; m2; "-"%char; d1; d2] =>
      match number 0 [y1; y2; y3; y4], number 0 [m1; m2], number 0 [d1; d2] with
      | Some y, Some m, Some d =>
          if (1 <=? m) && (m <=? 12) && (1 <=? d) && (d <=? days_in_month y m)
          then Some (days_from_civil y m d * DAY)
          else None
      | _, _, _ => None
      end
  | _ => None
  end.

End IsoDate.

(* ================================================================== *)
(** * Records of the program *)

Module HalvingEvent.
Record t := mk { date : string; blockHeight : Z; cycle : Z }.
End HalvingEvent.

Module PriceData.
Record t := mk { date : string; price : float; timestamp : Z }.
End PriceData.

Module Pre.
Record t := mk {
  startDate : string;
  startPrice : float;
  halvingPrice : float;
  percentageGain : float;
  daysAnalyzed : nat }.
End Pre.

Module Post.
Record t := mk {
  peakDate : string;
  peakPrice : float;
  percentageGain : float;
  crashDate : option string;
  crashPrice : option float;
  percentageFromPeak : option float;
  daysToPeak : option Z }.
End Post.

Module CycleAnalysis.
Record t := mk {
  cycle : Z;
  halvingDate : string;
  preHalvingData : Pre.t;
  postHalvingData : Post.t }.
End CycleAnalysis.

Definition HALVING_EVENTS : list HalvingEvent.t :=
  [ HalvingEvent.mk "2012-11-28" 210000 1;
    HalvingEvent.mk "2016-07-09" 420000 2;
    HalvingEvent.mk "2020-05-11" 630000 3;
    HalvingEvent.mk "2024-04-20" 840000 4 ].

(** The selection of the chart: ['all'] or a cycle number. *)
Inductive Selection := all | cycleNo (n : Z).

(* ================================================================== *)
(** * The analysis *)

Section Analysis.

(** [new Date(s).getTime()], [None] for an invalid date (NaN). *)
Variable getTime : string -> option Z.
(** [Date.now()]. *)
Variable now : Z.

(** [((end - start) / start) * 100] *)
Definition percentChange (start end_ : float) : float :=
  (((end_ - start) / start) * 100)%float.

(** [Math.abs(d.timestamp - halvingTimestamp) < 24 * 60 * 60 * 1000] *)
Definition nearHalving (T : Z) (d : PriceData.t) : bool :=
  Z.abs (PriceData.timestamp d - T) <? DAY.

(** [d.timestamp >= preHalvingStart && d.timestamp <= halvingTimestamp] *)
Definition inPre (T : Z) (d : PriceData.t) : bool :=
  let preHalvingStart := T - 365 * DAY in
  (preHalvingStart <=? PriceData.timestamp d) && (PriceData.timestamp d <=? T).

Definition preHalvingData (T : Z) (data : list PriceData.t) : list PriceData.t :=
  filter (inPre T) data.

Definition postHalvingEnd (T : Z) : Z := T + 550 * DAY.

(** [HALVING_EVENTS[index + 1]?.date ? new Date(...).getTime() : Date.now()] *)
Definition nextHalvingTimestamp (events : list HalvingEvent.t) (index : nat) : option Z :=
  match nth_error events (S index) with
  | Some next =>
      if JS.truthy_str (HalvingEvent.date next)
      then getTime (HalvingEvent.date next)
      else Some now
  | None => Some now
  end.

(** [Math.min(postHalvingEnd, nextHalvingTimestamp, Date.now())] *)
Definition analysisEnd (events : list HalvingEvent.t) (index : nat) (T : Z) : option Z :=
  JS.min2 (Some (postHalvingEnd T))
          (JS.min2 (nextHalvingTimestamp events index) (Some now)).

(** [d.timestamp > halvingTimestamp && d.timestamp <= analysisEnd];
    a comparison with NaN is false. *)
Definition inPost (T : Z) (bound : option Z) (d : PriceData.t) : bool :=
  match bound with
  | Some e => (T <? PriceData.timestamp d) && (PriceData.timestamp d <=? e)
  | None => false
  end.

Definition postHalvingData (events : list HalvingEvent.t) (index : nat) (T : Z)
    (data : list PriceData.t) : list PriceData.t :=
  filter (inPost T (analysisEnd events index T)) data.

(** ** Peak search *)

Record Peak := mkPeak { peakPrice : float; peakDate : string; peakIndex : nat }.

Definition peakStep (pk : Peak) (i : nat) (d : PriceData.t) : Peak :=
  if JS.gtb (PriceData.price d) (peakPrice pk)
  then mkPeak (PriceData.price d) (PriceData.date d) i
  else pk.

(** [postHalvingData.forEach((d, i) => ...)], [i] being the index of [d]. *)
Fixpoint peakScan (post : list PriceData.t) (i : nat) (pk : Peak) : Peak :=
  match post with
  | [] => pk
  | d :: rest => peakScan rest (S i) (peakStep pk i d)
  end.

(** ** Crash search *)

Record Crash := mkCrash {
  crashDate : option string;
  crashPrice : option float;
  maxDrawdown : float }.

Definition crash0 : Crash := mkCrash None None 0%float.

(** [((peakPrice - postHalvingData[i].price) / peakPrice) * 100] *)
Definition drawdown (peak : float) (d : PriceData.t) : float :=
  (((peak - PriceData.price d) / peak) * 100)%float.

Definition crashStep (peak : float) (st : Crash) (d : PriceData.t) : Crash :=
  let dd := drawdown peak d in
  if JS.gtb dd (maxDrawdown st) then
    if JS.geb dd 30%float && negb (JS.truthy_ostr (crashDate st))
    then mkCrash (Some (PriceData.date d)) (Some (PriceData.price d)) dd
    else mkCrash (crashDate st) (crashPrice st) dd
  else st.

(** [for (let i = peakIndex; i < postHalvingData.length; i++)] *)
Definition crashScan (peak : float) (from : nat) (post : list PriceData.t) : Crash :=
  fold_left (crashStep peak) (skipn from post) crash0.

(** ** One event *)

Definition preAnalysis (halving : HalvingEvent.t) (T : Z)
    (halvingPriceData : PriceData.t) (data : list PriceData.t) : Pre.t :=
  let pre := preHalvingData T data in
  let startPrice := JS.or_num (option_map PriceData.price (hd_error pre)) 0%float in
  let halvingPrice := PriceData.price halvingPriceData in
  let preHalvingGain := percentChange startPrice halvingPrice in
  Pre.mk (JS.or_str (option_map PriceData.date (hd_error pre)) (HalvingEvent.date halving))
         startPrice halvingPrice preHalvingGain (List.length pre).

Definition findPeak (halving : HalvingEvent.t) (halvingPrice : float)
    (post : list PriceData.t) : Peak :=
  peakScan post 0%nat (mkPeak halvingPrice (HalvingEvent.date halving) 0%nat).

Definition postAnalysis (halving : HalvingEvent.t) (T : Z)
    (halvingPriceData : PriceData.t) (post : list PriceData.t) : Post.t :=
  let halvingPrice := PriceData.price halvingPriceData in
  let pk := findPeak halving halvingPrice post in
  let postHalvingGain := percentChange halvingPrice (peakPrice pk) in
  let daysToPeak := option_map (fun tp => (tp - T) / DAY) (getTime (peakDate pk)) in
  let cr := crashScan (peakPrice pk) (peakIndex pk) post in
  Post.mk (peakDate pk) (peakPrice pk) postHalvingGain
          (crashDate cr) (crashPrice cr)
          match crashPrice cr with
          | Some c => if JS.truthy c then Some (percentChange (peakPrice pk) c) else None
          | None => None
          end
          daysToPeak.

(** The body of the [forEach] callback.  An invalid halving date gives a
    NaN timestamp, no sample is near it, and the callback returns. *)
Definition analyzeCycle (events : list HalvingEvent.t) (data : list PriceData.t)
    (index : nat) (halving : HalvingEvent.t) : option CycleAnalysis.t :=
  match getTime (HalvingEvent.date halving) with
  | None => None
  | Some T =>
      match find (nearHalving T) data with
      | None => None
      | Some halvingPriceData =>
          Some (CycleAnalysis.mk
                  (HalvingEvent.cycle halving)
                  (HalvingEvent.date halving)
                  (preAnalysis halving T halvingPriceData data)
                  (postAnalysis halving T halvingPriceData
                     (postHalvingData events index T data)))
      end
  end.

(** [analyses.push(...)] *)
Definition push (analyses : list CycleAnalysis.t) (r : option CycleAnalysis.t) :=
  match r with
  | Some a => analyses ++ [a]
  | None => analyses
  end.

(** [events.forEach((halving, index) => ...)] from position [index] on. *)
Fixpoint forEachFrom (events : list HalvingEvent.t) (data : list PriceData.t)
    (rest : list HalvingEvent.t) (index : nat) (analyses : list CycleAnalysis.t)
    : list CycleAnalysis.t :=
  match rest with
  | [] => analyses
  | halving :: rest' =>
      forEachFrom events data rest' (S index)
        (push analyses (analyzeCycle events data index halving))
  end.

Definition analyzeHalvingCyclesOn (events : list HalvingEvent.t)
    (data : list PriceData.t) : list CycleAnalysis.t :=
  forEachFrom events data events 0%nat [].

Definition analyzeHalvingCycles (data : list PriceData.t) : list CycleAnalysis.t :=
  analyzeHalvingCyclesOn HALVING_EVENTS data.

(** ** The chart's data *)

(** [d.timestamp >= startTime && d.timestamp <= endTime] *)
Definition inChart (T : Z) (d : PriceData.t) : bool :=
  let startTime := T - 365 * DAY in
  let endTime := T + 550 * DAY in
  (startTime <=? PriceData.timestamp d) && (PriceData.timestamp d <=? endTime).

Definition getFilteredDataOn (events : list HalvingEvent.t)
    (selectedCycle : Selection) (priceData : list PriceData.t) : list PriceData.t :=
  match selectedCycle with
  | all => priceData
  | cycleNo n =>
      match find (fun h => HalvingEvent.cycle h =? n) events with
      | None => priceData
      | Some halving =>
          match getTime (HalvingEvent.date halving) with
          | Some T => filter (inChart T) priceData
          | None => []
          end
      end
  end.

Definition getFilteredData (selectedCycle : Selection) (priceData : list PriceData.t) :=
  getFilteredDataOn HALVING_EVENTS selectedCycle priceData.

End Analysis.


Arguments drawdown : simpl never.
Arguments percentChange : simpl never.

(* ================================================================== *)
(** * Vocabulary of the properties *)

(** A value other than NaN. *)
Definition comparable (x : float) : Prop := exists k, fkey x = Some k.

(** One of the two zeros. *)
Definition is_zero_sf (x : spec_float) : Prop := exists s, x = S754_zero s.

(** [d] is a sample whose drawdown from [peak] reaches 30. *)
Definition qualifies (peak : float) (d : PriceData.t) : bool :=
  JS.geb (drawdown peak d) 30%float.

(** No crash recorded yet: the running maximum is still below 30. *)
Definition below (st : Crash) : Prop :=
  crashDate st = None /\ crashPrice st = None /\ flt (maxDrawdown st) 30%float.

(** A crash is recorded, at a sample of [l] that qualifies. *)
Definition recorded (peak : float) (l : list PriceData.t) (st : Crash) : Prop :=
  exists d, In d l /\ qualifies peak d = true
            /\ crashDate st = Some (PriceData.date d)
            /\ crashPrice st = Some (PriceData.price d)
            /\ fle 30%float (maxDrawdown st).

(** [r] is the record of the event [halving], at position [index] of
    [events], whose date reads as the time [T] and whose halving-day sample
    is [hpd]. *)
Definition analyzedAt (getTime : string -> option Z) (now : Z)
    (events : list HalvingEvent.t) (data : list PriceData.t)
    (index : nat) (halving : HalvingEvent.t) (T : Z) (hpd : PriceData.t)
    (r : CycleAnalysis.t) : Prop :=
  nth_error events index = Some halving /\
  getTime (HalvingEvent.date halving) = Some T /\
  find (nearHalving T) data = Some hpd /\
  r = CycleAnalysis.mk (HalvingEvent.cycle halving) (HalvingEvent.date halving)
        (preAnalysis halving T hpd data)
        (postAnalysis getTime halving T hpd
           (postHalvingData getTime now events index T data)).

(** The data model.  The date of a sample is what [fetchBitcoinData] makes
    of its timestamp with [format(..., 'yyyy-MM-dd')]: never the empty
    string.  A price is a positive real. *)
Definition dated (data : list PriceData.t) : Prop :=
  forall d, In d data -> PriceData.date d <> EmptyString.

Definition priced (data : list PriceData.t) : Prop :=
  forall d, In d data -> positive_price (PriceData.price d) = true.

(** Every price is strictly positive: [price > 0]. *)
Definition strictly_positive (data : list PriceData.t) : Prop :=
  forall d, In d data -> JS.gtb (PriceData.price d) 0%float = true.

(** A value of sign [s], a zero of either sign included; never NaN. *)
Definition sf_signed (s : bool) (x : spec_float) : Prop :=
  match x with
  | S754_zero _ => True
  | S754_infinity s' => s' = s
  | S754_finite s' _ _ => s' = s
  | S754_nan => False
  end.

(** The event has a readable date and a sample within a day of it. *)
Definition observed (getTime : string -> option Z) (data : list PriceData.t)
    (h : HalvingEvent.t) : bool :=
  match getTime (HalvingEvent.date h) with
  | Some T => existsb (nearHalving T) data
  | None => false
  end.

(** The guard of the crash paragraphs of a card, and of the correction line
    of the key findings: [cycle.postHalvingData.crashDate && (...)]. *)
Definition showsCrash (cycle : CycleAnalysis.t) : bool :=
  JS.truthy_ostr (Post.crashDate (CycleAnalysis.postHalvingData cycle)).

(** Unfolds the order of floats down to integer triples. *)
Ltac key_order :=
  unfold fle, flt, key_le in *;
  repeat match goal with
    | H : exists _, _ |- _ => destruct H
    | H : _ /\ _ |- _ => destruct H
    | H : ?x = Some ?k1, H' : ?x = Some ?k2 |- _ =>
        let E := fresh "E" in
        assert (E : k2 = k1) by congruence; clear H'; try subst k2
    | H : ?x = Some _, H' : ?x = None |- _ => rewrite H in H'; discriminate
    end;
  repeat match goal with
    | k : key |- _ => destruct k as [[? ?] ?]
    end;
  repeat match goal with
    | H : (_, _) = (_, _) |- _ => injection H as ? ?
    end;
  unfold key_lt in *.

(** Closes an order goal between floats by integer arithmetic on the keys. *)
Ltac key_solve :=
  key_order;
  try (do 2 eexists; split; [eassumption | split; [eassumption |]]);
  cbn; first [lia | intuition (subst; first [lia | reflexivity | congruence])].

(* ================================================================== *)
(** * Sample series *)

Module Scenario.

(** The first configured event, 2012-11-28. *)
Definition T1 : Z := 1354060800000.

Definition now0 : Z := 1762000000000.

(** A year of rise, a peak 100 days after the event, then a fall of 35%
    and more. *)
Definition rise_and_fall : list PriceData.t :=
  [ PriceData.mk "2011-11-29" 100 (T1 - 365 * DAY);
    PriceData.mk "2012-11-28" 200 T1;
    PriceData.mk "2013-03-08" 1000 (T1 + 100 * DAY);
    PriceData.mk "2013-04-27" 650 (T1 + 150 * DAY);
    PriceData.mk "2013-06-16" 400 (T1 + 200 * DAY) ].

(** A dip right after the event, before the rise to the peak. *)
Definition dip_then_peak : list PriceData.t :=
  [ PriceData.mk "2012-11-28" 100 T1;
    PriceData.mk "2012-11-29" 50 (T1 + DAY);
    PriceData.mk "2012-11-30" 1000 (T1 + 2 * DAY) ].

(** A series that starts an hour after the event. *)
Definition late_start : list PriceData.t :=
  [ PriceData.mk "2012-11-28" 100 (T1 + 3600000);
    PriceData.mk "2012-11-29" 120 (T1 + DAY + 3600000) ].

(** The records the analysis gives for them. *)
Definition rise_record : CycleAnalysis.t :=
  CycleAnalysis.mk 1 "2012-11-28"
    (Pre.mk "2011-11-29" 100 200 100 2)
    (Post.mk "2013-03-08" 1000 400 (Some "2013-04-27"%string) (Some 650%float)
       (Some (-35)%float) (Some 100)).

Definition dip_record : CycleAnalysis.t :=
  CycleAnalysis.mk 1 "2012-11-28"
    (Pre.mk "2012-11-28" 100 100 0 1)
    (Post.mk "2012-11-30" 1000 900 None None None (Some 2)).

Definition late_record : CycleAnalysis.t :=
  CycleAnalysis.mk 1 "2012-11-28"
    (Pre.mk "2012-11-28" 0 100 infinity 0)
    (Post.mk "2012-11-29" 120 20 None None None (Some 1)).

End Scenario.

(** A series read while the fourth cycle is still open, with a sample dated
    ahead of the clock. *)
Module OpenCycle.

(** The fourth configured event, 2024-04-20. *)
Definition T4 : Z := 1713571200000.

(** The clock, 100 days after the event. *)
Definition now100 : Z := T4 + 100 * DAY.

(** A sample 150 days after the event. *)
Definition ahead : PriceData.t := PriceData.mk "2024-09-17" 60000 (T4 + 150 * DAY).

Definition series : list PriceData.t :=
  [ PriceData.mk "2024-04-20" 64000 T4; ahead ].

End OpenCycle.

(* ================================================================== *)
(** * The order of binary64 values *)

Lemma key_cmp_Lt (a b : key) : key_cmp a b = Lt <-> key_lt a b.
Proof.
  destruct a as [[a1 a2] a3], b as [[b1 b2] b3]; unfold key_cmp, key_lt.
  destruct (Z.compare_spec a1 b1), (Z.compare_spec a2 b2), (Z.compare_spec a3 b3);
    split; intros; try discriminate; try reflexivity; lia.
Qed.

Lemma key_cmp_Eq (a b : key) : key_cmp a b = Eq <-> a = b.
Proof.
  destruct a as [[a1 a2] a3], b as [[b1 b2] b3]; unfold key_cmp.
  destruct (Z.compare_spec a1 b1), (Z.compare_spec a2 b2), (Z.compare_spec a3 b3);
    split; intros H2; try discriminate; try reflexivity;
    try (injection H2; intros; lia); subst; reflexivity.
Qed.

Lemma key_cmp_Gt (a b : key) : key_cmp a b = Gt <-> key_lt b a.
Proof.
  destruct a as [[a1 a2] a3], b as [[b1 b2] b3]; unfold key_cmp, key_lt.
  destruct (Z.compare_spec a1 b1), (Z.compare_spec a2 b2), (Z.compare_spec a3 b3);
    split; intros; try discriminate; try reflexivity; lia.
Qed.

Lemma SFcompare_key (x y : spec_float) :
  SFcompare x y =
  match sf_key x, sf_key y with
  | Some a, Some b => Some (key_cmp a b)
  | _, _ => None
  end.
Proof.
  destruct x as [sx|sx| |sx mx ex], y as [sy|sy| |sy my ey];
    try destruct sx; try destruct sy; try reflexivity.
  - cbn. rewrite Z.compare_opp. rewrite (Z.compare_antisym ey ex).
    destruct (ey ?= ex) eqn:E; cbn; reflexivity.
Qed.

Local Open Scope float_scope.

Lemma ltb_flt (a b : float) : (a <? b) = true <-> flt a b.
Proof.
  rewrite ltb_spec. unfold SFltb, flt, fkey. rewrite SFcompare_key.
  destruct (sf_key (Prim2SF a)) as [ka|], (sf_key (Prim2SF b)) as [kb|].
  - destruct (key_cmp ka kb) eqn:E; split; intros H; try discriminate; try reflexivity.
    + destruct H as (x & y & Hx & Hy & Hl); injection Hx as <-; injection Hy as <-.
      apply key_cmp_Lt in Hl. congruence.
    + exists ka, kb. rewrite <- key_cmp_Lt. auto.
    + destruct H as (x & y & Hx & Hy & Hl); injection Hx as <-; injection Hy as <-.
      apply key_cmp_Lt in Hl. congruence.
  - split; [discriminate | intros (x & y & _ & Hy & _); discriminate].
  - split; [discriminate | intros (x & y & Hx & _ & _); discriminate].
  - split; [discriminate | intros (x & y & Hx & _ & _); discriminate].
Qed.

Lemma leb_fle (a b : float) : (a <=? b) = true <-> fle a b.
Proof.
  rewrite leb_spec. unfold SFleb, fle, fkey. rewrite SFcompare_key.
  destruct (sf_key (Prim2SF a)) as [ka|], (sf_key (Prim2SF b)) as [kb|].
  - destruct (key_cmp ka kb) eqn:E; split; intros H; try discriminate; try reflexivity.
    + exists ka, kb. apply key_cmp_Eq in E. unfold key_le. auto.
    + exists ka, kb. apply key_cmp_Lt in E. unfold key_le. auto.
    + destruct H as (x & y & Hx & Hy & [Hl | He]); injection Hx as <-; injection Hy as <-.
      * apply key_cmp_Lt in Hl. congruence.
      * apply key_cmp_Eq in He. congruence.
  - split; [discriminate | intros (x & y & _ & Hy & _); discriminate].
  - split; [discriminate | intros (x & y & Hx & _ & _); discriminate].
  - split; [discriminate | intros (x & y & Hx & _ & _); discriminate].
Qed.

Lemma ltb_not_flt (a b : float) : (a <? b) = false <-> ~ flt a b.
Proof.
  rewrite <- ltb_flt. destruct (a <? b); split; congruence.
Qed.

Lemma leb_not_fle (a b : float) : (a <=? b) = false <-> ~ fle a b.
Proof.
  rewrite <- leb_fle. destruct (a <=? b); split; congruence.
Qed.

Lemma flt_fle_trans a b c : flt a b -> fle b c -> flt a c.
Proof. intros; key_solve. Qed.

Lemma fle_flt_trans a b c : fle a b -> flt b c -> flt a c.
Proof. intros; key_solve. Qed.

Lemma fle_trans a b c : fle a b -> fle b c -> fle a c.
Proof. intros; key_solve. Qed.

Lemma flt_fle a b : flt a b -> fle a b.
Proof. intros; key_solve. Qed.

Lemma fle_total a b ka kb :
  fkey a = Some ka -> fkey b = Some kb -> ~ flt a b -> fle b a.
Proof.
  intros Ha Hb H. unfold fle. exists kb, ka. repeat split; auto.
  destruct (key_cmp ka kb) eqn:E.
  - apply key_cmp_Eq in E. right. congruence.
  - apply key_cmp_Lt in E. destruct H. exists ka, kb. auto.
  - apply key_cmp_Gt in E. left. exact E.
Qed.

Lemma flt_key_l a b : flt a b -> exists k, fkey a = Some k.
Proof. intros (ka & kb & H & _). eauto. Qed.

Lemma flt_key_r a b : flt a b -> exists k, fkey b = Some k.
Proof. intros (ka & kb & _ & H & _). eauto. Qed.

Lemma fle_key_l a b : fle a b -> exists k, fkey a = Some k.
Proof. intros (ka & kb & H & _). eauto. Qed.

Lemma fle_key_r a b : fle a b -> exists k, fkey b = Some k.
Proof. intros (ka & kb & _ & H & _). eauto. Qed.

Lemma fle_refl a k : fkey a = Some k -> fle a a.
Proof. intros H. exists k, k. unfold key_le. auto. Qed.

Local Close Scope float_scope.

(* ================================================================== *)
(** * The crash scan *)

Lemma fkey_30 : fkey 30%float = Some (1, -48, 8444249301319680).
Proof. reflexivity. Qed.

Lemma fkey_0 : fkey 0%float = Some (0, 0, 0).
Proof. reflexivity. Qed.

Lemma find_first {A} (f : A -> bool) (l : list A) (d : A) :
  find f l = Some d ->
  exists before after,
    l = before ++ d :: after /\ Forall (fun x => f x = false) before /\ f d = true.
Proof.
  induction l as [|x l IH]; cbn; [discriminate|].
  destruct (f x) eqn:E.
  - intros [= ->]. exists [], l. auto.
  - intros H. destruct (IH H) as (b & a & -> & Hb & Hd).
    exists (x :: b), a. auto.
Qed.

Lemma find_none_Forall {A} (f : A -> bool) (l : list A) :
  find f l = None <-> Forall (fun x => f x = false) l.
Proof.
  induction l as [|x l IH]; cbn.
  - split; auto.
  - destruct (f x) eqn:E; split; intros H.
    + discriminate.
    + inversion H; congruence.
    + constructor; [assumption | apply IH, H].
    + apply IH. inversion H; assumption.
Qed.


Section CrashScan.

Variable peak : float.

Lemma below_0 : below crash0.
Proof.
  repeat split. exists (0, 0, 0), (1, -48, 8444249301319680).
  repeat split; cbn; lia.
Qed.

Lemma crashStep_below_no st d :
  below st -> qualifies peak d = false -> below (crashStep peak st d).
Proof.
  intros (Hd & Hp & Hm) Hq. unfold crashStep, qualifies, JS.geb, JS.gtb in *.
  rewrite Hq. cbn [andb].
  destruct (PrimFloat.ltb (maxDrawdown st) (drawdown peak d)) eqn:E.
  - repeat split; cbn; auto.
    apply ltb_flt in E. apply leb_not_fle in Hq.
    destruct (flt_key_r _ _ E) as (k & Hk).
    destruct (fle_total 30%float (drawdown peak d) _ _ fkey_30 Hk)
      as (ka & kb & Ha & Hb & [Hl | He]).
    + intros Hx. apply Hq. apply flt_fle. exact Hx.
    + exists ka, kb. auto.
    + destruct Hq. exists kb, ka. subst. unfold key_le. auto.
  - repeat split; auto.
Qed.

Lemma crashStep_below_yes st d :
  below st -> qualifies peak d = true ->
  crashStep peak st d =
    mkCrash (Some (PriceData.date d)) (Some (PriceData.price d)) (drawdown peak d).
Proof.
  intros (Hd & Hp & Hm) Hq. unfold crashStep, qualifies, JS.geb, JS.gtb in *.
  rewrite Hq, Hd. cbn.
  apply leb_fle in Hq.
  rewrite (proj2 (ltb_flt _ _) (flt_fle_trans _ _ _ Hm Hq)). reflexivity.
Qed.

Lemma crashStep_recorded l st d :
  In d l -> recorded peak l st -> recorded peak l (crashStep peak st d).
Proof.
  intros Hin (d0 & Hin0 & Hq & Hd & Hp & Hm). unfold crashStep, JS.gtb.
  destruct (PrimFloat.ltb (maxDrawdown st) (drawdown peak d)) eqn:E;
    [| exists d0; auto].
  apply ltb_flt in E.
  assert (Hge : fle 30%float (drawdown peak d))
    by (apply flt_fle; eapply fle_flt_trans; eassumption).
  destruct (JS.geb (drawdown peak d) 30 && negb (JS.truthy_ostr (crashDate st))).
  - exists d. unfold qualifies, JS.geb. rewrite (proj2 (leb_fle _ _) Hge). cbn. auto.
  - exists d0. cbn. auto.
Qed.

Lemma fold_recorded l l' : forall st,
  incl l' l -> recorded peak l st -> recorded peak l (fold_left (crashStep peak) l' st).
Proof.
  induction l' as [|d l' IH]; cbn; intros st Hl H; auto.
  apply IH.
  - intros x Hx. apply Hl. right. exact Hx.
  - apply crashStep_recorded; auto. apply Hl. left. reflexivity.
Qed.

(** A recorded crash with a non-empty date is final. *)
Lemma crashStep_locked st d :
  JS.truthy_ostr (crashDate st) = true ->
  crashDate (crashStep peak st d) = crashDate st /\
  crashPrice (crashStep peak st d) = crashPrice st.
Proof.
  intros H. unfold crashStep. rewrite H, andb_false_r.
  destruct (JS.gtb _ _); auto.
Qed.

Lemma fold_locked l st :
  JS.truthy_ostr (crashDate st) = true ->
  crashDate (fold_left (crashStep peak) l st) = crashDate st /\
  crashPrice (fold_left (crashStep peak) l st) = crashPrice st.
Proof.
  revert st; induction l as [|d l IH]; cbn; intros st H; auto.
  destruct (crashStep_locked st d H) as (Hd & Hp).
  destruct (IH (crashStep peak st d)) as (Hd' & Hp'); [congruence|].
  split; congruence.
Qed.

Lemma fold_below l st :
  below st -> Forall (fun d => qualifies peak d = false) l ->
  below (fold_left (crashStep peak) l st).
Proof.
  revert st; induction l as [|d l IH]; cbn; intros st H Hl; auto.
  inversion Hl; subst. apply IH; auto using crashStep_below_no.
Qed.

(** The scan as a whole: nothing is recorded when no sample qualifies,
    and otherwise a qualifying sample is. *)
Lemma fold_scan l st :
  below st ->
  match find (qualifies peak) l with
  | None => below (fold_left (crashStep peak) l st)
  | Some _ => recorded peak l (fold_left (crashStep peak) l st)
  end.
Proof.
  intros H. destruct (find (qualifies peak) l) as [d|] eqn:E.
  - destruct (find_first _ _ _ E) as (b & a & -> & Hb & Hd).
    rewrite fold_left_app. cbn.
    apply fold_recorded.
    + intros x Hx. apply in_or_app. right. right. exact Hx.
    + rewrite (crashStep_below_yes _ d (fold_below b st H Hb) Hd).
      exists d. cbn. repeat split; auto.
      * apply in_or_app. right. left. reflexivity.
      * apply leb_fle. exact Hd.
  - apply fold_below; auto. apply find_none_Forall, E.
Qed.

(** With non-empty dates, the record is the first qualifying sample and
    stays so whatever follows. *)
Lemma fold_first before d after st :
  below st ->
  Forall (fun x => qualifies peak x = false) before ->
  qualifies peak d = true ->
  PriceData.date d <> ""%string ->
  crashDate (fold_left (crashStep peak) (before ++ d :: after) st) = Some (PriceData.date d) /\
  crashPrice (fold_left (crashStep peak) (before ++ d :: after) st) = Some (PriceData.price d).
Proof.
  intros H Hb Hd Hne. rewrite fold_left_app. cbn.
  rewrite (crashStep_below_yes _ d (fold_below before st H Hb) Hd).
  apply (fold_locked after). cbn. destruct (PriceData.date d); [congruence | reflexivity].
Qed.

End CrashScan.

(* ================================================================== *)
(** * The peak scan *)

Lemma flt_trans a b c : flt a b -> flt b c -> flt a c.
Proof. intros H1 H2. eapply flt_fle_trans; [exact H1 | apply flt_fle, H2]. Qed.

Lemma not_gtb_fle a b :
  comparable a -> comparable b -> JS.gtb a b = false -> fle a b.
Proof.
  intros (ka & Ha) (kb & Hb) H. unfold JS.gtb in H. apply ltb_not_flt in H.
  eapply fle_total; eauto.
Qed.

Section PeakScan.

(** Without a price above the running peak, the scan changes nothing. *)
Lemma peakScan_seed post i pk :
  Forall (fun d => JS.gtb (PriceData.price d) (peakPrice pk) = false) post ->
  peakScan post i pk = pk.
Proof.
  revert i; induction post as [|d post IH]; cbn; intros i H; auto.
  inversion H; subst. unfold peakStep, JS.gtb in *. rewrite H2. auto.
Qed.

(** The peak is at least its seed and at least every scanned price. *)
Lemma peakScan_ge post : forall i pk,
  comparable (peakPrice pk) ->
  Forall (fun d => comparable (PriceData.price d)) post ->
  fle (peakPrice pk) (peakPrice (peakScan post i pk)) /\
  Forall (fun d => fle (PriceData.price d) (peakPrice (peakScan post i pk))) post.
Proof.
  induction post as [|d post IH]; cbn; intros i pk Hpk Hpost.
  - split; [destruct Hpk as (k & Hk); eapply fle_refl; eauto | constructor].
  - inversion Hpost as [|? ? Hd Hrest]; subst.
    unfold peakStep. destruct (JS.gtb (PriceData.price d) (peakPrice pk)) eqn:E.
    + destruct (IH (S i) (mkPeak (PriceData.price d) (PriceData.date d) i) Hd Hrest)
        as (H1 & H2). cbn in H1.
      unfold JS.gtb in E. apply ltb_flt in E. split.
      * apply flt_fle. eapply flt_fle_trans; eauto.
      * constructor; auto.
    + destruct (IH (S i) pk Hpk Hrest) as (H1 & H2). split; auto.
      constructor; auto. eapply fle_trans; [| exact H1].
      apply not_gtb_fle; auto.
Qed.

(** Either no price exceeded the seed, or the peak is the earliest sample
    carrying the maximum: every sample before it is strictly below. *)
Lemma peakScan_first post : forall i pk,
  comparable (peakPrice pk) ->
  Forall (fun d => comparable (PriceData.price d)) post ->
  (peakScan post i pk = pk /\
   Forall (fun d => JS.gtb (PriceData.price d) (peakPrice pk) = false) post)
  \/
  (exists before d after,
      post = before ++ d :: after /\
      peakScan post i pk =
        mkPeak (PriceData.price d) (PriceData.date d) (i + List.length before) /\
      flt (peakPrice pk) (PriceData.price d) /\
      Forall (fun x => flt (PriceData.price x) (PriceData.price d)) before).
Proof.
  induction post as [|d post IH]; cbn; intros i pk Hpk Hpost.
  - left; auto.
  - inversion Hpost as [|? ? Hd Hrest]; subst.
    unfold peakStep. destruct (JS.gtb (PriceData.price d) (peakPrice pk)) eqn:E.
    + right. pose proof E as E'. unfold JS.gtb in E'. apply ltb_flt in E'.
      destruct (IH (S i) (mkPeak (PriceData.price d) (PriceData.date d) i) Hd Hrest)
        as [(Heq & _) | (b & x & a & -> & Heq & Hlt & Hb)].
      * exists [], d, post. rewrite Heq. cbn. rewrite Nat.add_0_r. auto.
      * exists (d :: b), x, a. rewrite Heq. cbn in *.
        rewrite Nat.add_succ_r. repeat split; auto.
        eapply flt_trans; eauto.
    + destruct (IH (S i) pk Hpk Hrest)
        as [(Heq & Hno) | (b & x & a & -> & Heq & Hlt & Hb)].
      * left. auto.
      * right. exists (d :: b), x, a. rewrite Heq. cbn.
        rewrite Nat.add_succ_r. repeat split; auto.
        constructor; auto. eapply fle_flt_trans; [| exact Hlt].
        apply not_gtb_fle; auto.
Qed.

End PeakScan.

(* ================================================================== *)
(** * Arithmetic of the percentages *)

Lemma Prim2SF_0 : Prim2SF 0%float = S754_zero false.
Proof. reflexivity. Qed.

Lemma Prim2SF_100 : Prim2SF 100%float = S754_finite false 7036874417766400 (-46).
Proof. reflexivity. Qed.

Lemma Prim2SF_inf : Prim2SF infinity = S754_infinity false.
Proof. reflexivity. Qed.

(** A positive price is a positive finite binary64 value. *)
Lemma positive_price_finite p :
  positive_price p = true -> exists m e, Prim2SF p = S754_finite false m e.
Proof.
  unfold positive_price. rewrite andb_true_iff, !ltb_spec, Prim2SF_0, Prim2SF_inf.
  destruct (Prim2SF p) as [s|s| |s m e]; cbn; intros (H1 & H2); try discriminate.
  - destruct s; discriminate.
  - destruct s; [discriminate | eauto].
Qed.

Lemma positive_price_comparable p : positive_price p = true -> comparable p.
Proof.
  intros H. destruct (positive_price_finite p H) as (m & e & E).
  unfold comparable, fkey. rewrite E. cbn. eauto.
Qed.

Lemma positive_price_truthy p : positive_price p = true -> JS.truthy p = true.
Proof.
  intros H. destruct (positive_price_finite p H) as (m & e & E).
  unfold JS.truthy, is_zero, is_nan. rewrite !eqb_spec, E.
  change (Prim2SF zero) with (S754_zero false).
  unfold SFeqb. cbn. rewrite Z.compare_refl, Pos.compare_cont_refl. reflexivity.
Qed.

(** ** Rounding does not look at the sign *)

Lemma binary_round_aux_opp s m e l :
  binary_round_aux prec emax (negb s) m e l = SFopp (binary_round_aux prec emax s m e l).
Proof.
  unfold binary_round_aux.
  destruct (shr_fexp prec emax m e l) as [mrs' e'].
  destruct (shr_fexp prec emax _ e' loc_Exact) as [mrs'' e''].
  destruct (shr_m mrs''); try reflexivity.
  destruct (e'' <=? emax - prec); reflexivity.
Qed.

Lemma binary_round_opp s m e :
  binary_round prec emax (negb s) m e = SFopp (binary_round prec emax s m e).
Proof.
  unfold binary_round. destruct (shl_align _ _ _) as [mz ez].
  apply binary_round_aux_opp.
Qed.

(** [y - x] is the opposite of [x - y], unless both are zero. *)
Lemma SF64sub_swap x y :
  SF64sub y x = SFopp (SF64sub x y) \/ is_zero_sf (SF64sub x y).
Proof.
  unfold SF64sub, is_zero_sf.
  destruct x as [sx|sx| |sx mx ex], y as [sy|sy| |sy my ey]; cbn;
    try (left; reflexivity);
    try (destruct sx, sy; cbn; (left; reflexivity) || (right; eauto); fail).
  rewrite (Z.min_comm ey ex).
    set (a := cond_Zopp sx _). set (b := cond_Zopp sy _).
    replace (b - a) with (- (a - b)) by lia.
    destruct (a - b) as [|p|p]; cbn.
    + right; eauto.
    + left. apply (binary_round_opp false).
    + left. rewrite <- (binary_round_opp true). reflexivity.
  
Qed.

Lemma SF64div_opp_l x y : SF64div (SFopp x) y = SFopp (SF64div x y).
Proof.
  unfold SF64div.
  destruct x as [sx|sx| |sx mx ex], y as [sy|sy| |sy my ey]; cbn;
    rewrite ?negb_xorb_l; try reflexivity.
  destruct (SFdiv_core_binary prec emax _ _ _ _) as [[mz ez] lz].
  rewrite <- negb_xorb_l. apply binary_round_aux_opp.
Qed.

Lemma SF64mul_opp_l x y : SF64mul (SFopp x) y = SFopp (SF64mul x y).
Proof.
  unfold SF64mul.
  destruct x as [sx|sx| |sx mx ex], y as [sy|sy| |sy my ey]; cbn;
    rewrite ?negb_xorb_l; try reflexivity.
  rewrite <- negb_xorb_l. apply binary_round_aux_opp.
Qed.

Lemma sf_key_opp x :
  sf_key (SFopp x) =
  option_map (fun '(a, b, c) => (- a, - b, - c)) (sf_key x).
Proof.
  destruct x as [s|s| |s m e]; try destruct s; cbn; try reflexivity.
  rewrite Z.opp_involutive. reflexivity.
Qed.

Lemma fle_opp a b : fle a b -> fle (- b) (- a).
Proof.
  unfold fle, fkey. rewrite !opp_spec, !sf_key_opp.
  intros (ka & kb & -> & -> & H). cbn.
  destruct ka as [[a1 a2] a3], kb as [[b1 b2] b3].
  do 2 eexists. repeat split.
  destruct H as [H | H]; [left | right].
  - unfold key_lt in *. lia.
  - injection H as -> -> ->. reflexivity.
Qed.

(** The two percentages of the crash: the fall measured from the peak is
    the opposite of the drawdown, as soon as the drawdown is not zero. *)
Lemma percentChange_opp_drawdown peak d :
  JS.geb (drawdown peak d) 30%float = true ->
  percentChange peak (PriceData.price d) = (- drawdown peak d)%float.
Proof.
  unfold JS.geb. rewrite leb_spec. intros H.
  apply Prim2SF_inj. unfold percentChange, drawdown in *.
  rewrite opp_spec. rewrite !mul_spec, !div_spec, !sub_spec in *.
  destruct (SF64sub_swap (Prim2SF peak) (Prim2SF (PriceData.price d))) as [E | (s & E)].
  - rewrite E, SF64div_opp_l, SF64mul_opp_l. reflexivity.
  - exfalso. rewrite E in H. rewrite Prim2SF_100 in H.
    change (Prim2SF 30%float) with (S754_finite false 8444249301319680 (-48)) in H.
    destruct (Prim2SF peak) as [sp|sp| |sp mp ep]; cbn in H; discriminate.
Qed.

Lemma drawdown_fall peak d :
  JS.geb (drawdown peak d) 30%float = true ->
  PrimFloat.leb (percentChange peak (PriceData.price d)) (-30)%float = true.
Proof.
  intros H. rewrite (percentChange_opp_drawdown _ _ H).
  apply leb_fle. change (-30)%float with (- (30))%float.
  apply fle_opp. apply leb_fle. exact H.
Qed.

(** From a price to itself the change is zero. *)
Lemma percentChange_same p : positive_price p = true -> percentChange p p = 0%float.
Proof.
  intros H. destruct (positive_price_finite p H) as (m & e & E).
  apply Prim2SF_inj. unfold percentChange.
  rewrite mul_spec, div_spec, sub_spec, E, Prim2SF_100, Prim2SF_0.
  unfold SF64sub, SFsub. cbn [cond_Zopp]. rewrite Z.sub_diag. reflexivity.
Qed.

(** From a start price of zero the change is never finite. *)
Lemma percentChange_from_zero p : JS.isFinite (percentChange 0%float p) = false.
Proof.
  unfold JS.isFinite, is_finite, is_nan, is_infinity, percentChange.
  rewrite !eqb_spec, abs_spec, mul_spec, div_spec, sub_spec, Prim2SF_100, Prim2SF_0, Prim2SF_inf.
  destruct (Prim2SF p) as [s|s| |s m e]; try destruct s; reflexivity.
Qed.

(* ================================================================== *)
(** * The runner *)

Section Runner.

Variable getTime : string -> option Z.
Variable now : Z.
Variable events : list HalvingEvent.t.
Variable data : list PriceData.t.

Local Abbreviation run := (forEachFrom getTime now events data).
Local Abbreviation cycleAt := (analyzeCycle getTime now events data).

Lemma forEachFrom_acc rest : forall i acc, run rest i acc = acc ++ run rest i [].
Proof.
  induction rest as [|h rest IH]; cbn; intros i acc.
  - symmetry. apply app_nil_r.
  - rewrite IH. rewrite (IH _ (push [] _)).
    destruct (cycleAt i h); cbn; [rewrite <- app_assoc|]; reflexivity.
Qed.

Lemma forEachFrom_cons h rest i :
  run (h :: rest) i [] = push [] (cycleAt i h) ++ run rest (S i) [].
Proof. cbn. apply forEachFrom_acc. Qed.

Lemma forEachFrom_app l1 : forall l2 i,
  run (l1 ++ l2) i [] = run l1 i [] ++ run l2 (i + List.length l1)%nat [].
Proof.
  induction l1 as [|h l1 IH]; intros l2 i.
  - cbn. rewrite Nat.add_0_r. reflexivity.
  - rewrite <- app_comm_cons, !forEachFrom_cons, IH, app_assoc.
    cbn [List.length]. rewrite Nat.add_succ_r. reflexivity.
Qed.

Lemma forEachFrom_length rest : forall i,
  (List.length (run rest i []) <= List.length rest)%nat.
Proof.
  induction rest as [|h rest IH]; intros i; [cbn; lia|].
  rewrite forEachFrom_cons, length_app. specialize (IH (S i)).
  destruct (cycleAt i h); cbn in *; lia.
Qed.

Lemma In_forEachFrom r rest : forall i,
  In r (run rest i []) <->
  exists j h, nth_error rest j = Some h /\ cycleAt (i + j)%nat h = Some r.
Proof.
  induction rest as [|h rest IH]; intros i.
  - cbn. split; [tauto | intros ([|j] & h & H & _); discriminate].
  - rewrite forEachFrom_cons, in_app_iff, IH. split.
    + intros [H | (j & h' & Hj & Hr)].
      * exists 0%nat, h. rewrite Nat.add_0_r. split; [reflexivity|].
        destruct (cycleAt i h); cbn in H; [destruct H as [-> | []]; reflexivity | tauto].
      * exists (S j), h'. rewrite Nat.add_succ_r. auto.
    + intros ([|j] & h' & Hj & Hr).
      * left. cbn in Hj. injection Hj as <-. rewrite Nat.add_0_r in Hr.
        rewrite Hr. cbn. auto.
      * right. exists j, h'. rewrite Nat.add_succ_r in Hr. auto.
Qed.

(** Every record of the result is the record of one event, which has a
    readable date and a sample on its day. *)
Lemma produced_inv r :
  In r (analyzeHalvingCyclesOn getTime now events data) ->
  exists index halving T hpd, analyzedAt getTime now events data index halving T hpd r.
Proof.
  unfold analyzeHalvingCyclesOn. rewrite In_forEachFrom.
  intros (j & h & Hj & Hr). cbn in Hr. unfold analyzeCycle in Hr.
  destruct (getTime (HalvingEvent.date h)) as [T|] eqn:ET; [|discriminate].
  destruct (find (nearHalving T) data) as [hpd|] eqn:EF; [|discriminate].
  injection Hr as <-. exists j, h, T, hpd. repeat split; auto.
Qed.

Lemma analyzedAt_produced index halving T hpd r :
  analyzedAt getTime now events data index halving T hpd r ->
  analyzeCycle getTime now events data index halving = Some r /\
  In r (analyzeHalvingCyclesOn getTime now events data).
Proof.
  intros (Hn & HT & HF & ->).
  assert (E : cycleAt index halving = Some
     (CycleAnalysis.mk (HalvingEvent.cycle halving) (HalvingEvent.date halving)
      (preAnalysis halving T hpd data)
      (postAnalysis getTime halving T hpd
         (postHalvingData getTime now events index T data)))).
  { unfold analyzeCycle. rewrite HT, HF. reflexivity. }
  split; [exact E|].
  unfold analyzeHalvingCyclesOn. apply In_forEachFrom.
  exists index, halving. auto.
Qed.

End Runner.

(* ================================================================== *)
(** * The crash fields of a record *)

Lemma positive_truthy p : JS.gtb p 0%float = true -> JS.truthy p = true.
Proof.
  unfold JS.gtb, JS.truthy, is_zero, is_nan. rewrite ltb_spec, !eqb_spec.
  change (Prim2SF zero) with (S754_zero false). rewrite Prim2SF_0.
  destruct (Prim2SF p) as [s|s| |s m e]; try destruct s; cbn; try discriminate; auto.
  intros _. unfold SFeqb. cbn. rewrite Z.compare_refl, Pos.compare_cont_refl. reflexivity.
Qed.

Lemma In_skipn {A} (n : nat) (l : list A) (x : A) : In x (skipn n l) -> In x l.
Proof.
  intros H. rewrite <- (firstn_skipn n l). apply in_or_app. right. exact H.
Qed.

(** The crash fields of a record are those of the crash scan. *)
Lemma post_crash_fields getTime halving T hpd post :
  let pk := findPeak halving (PriceData.price hpd) post in
  let cr := crashScan (peakPrice pk) (peakIndex pk) post in
  let p := postAnalysis getTime halving T hpd post in
  Post.crashDate p = crashDate cr /\
  Post.crashPrice p = crashPrice cr /\
  Post.peakPrice p = peakPrice pk /\
  Post.peakDate p = peakDate pk /\
  Post.percentageFromPeak p =
    match crashPrice cr with
    | Some c => if JS.truthy c then Some (percentChange (peakPrice pk) c) else None
    | None => None
    end.
Proof. cbn. auto. Qed.

(** C1: when a crash date is reported, it is the date of the earliest
    sample, from the peak's index to the end of the post-event window,
    whose drawdown [(peakPrice - price) / peakPrice * 100] is at least 30;
    the crash price is that sample's, and whatever is scanned after it
    leaves both as they are. *)
Theorem crash_is_first_qualifying_sample getTime now events data r :
  In r (analyzeHalvingCyclesOn getTime now events data) ->
  dated data ->
  exists index halving T hpd,
    analyzedAt getTime now events data index halving T hpd r /\
    let post := postHalvingData getTime now events index T data in
    let pk := findPeak halving (PriceData.price hpd) post in
    let scanned := skipn (peakIndex pk) post in
    forall cd, Post.crashDate (CycleAnalysis.postHalvingData r) = Some cd ->
      exists before d after,
        scanned = before ++ d :: after /\
        Forall (fun x => JS.geb (drawdown (peakPrice pk) x) 30%float = false) before /\
        JS.geb (drawdown (peakPrice pk) d) 30%float = true /\
        cd = PriceData.date d /\
        Post.crashPrice (CycleAnalysis.postHalvingData r) = Some (PriceData.price d) /\
        forall k,
          let st := fold_left (crashStep (peakPrice pk))
                      (before ++ d :: firstn k after) crash0 in
          crashDate st = Some (PriceData.date d) /\
          crashPrice st = Some (PriceData.price d).
Proof.
  intros Hin Hdated.
  destruct (produced_inv _ _ _ _ _ Hin) as (index & halving & T & hpd & Hat).
  exists index, halving, T, hpd. split; [exact Hat|].
  destruct Hat as (Hn & HT & HF & ->). cbn zeta. intros cd.
  set (post := postHalvingData getTime now events index T data).
  set (pk := findPeak halving (PriceData.price hpd) post).
  destruct (post_crash_fields getTime halving T hpd post) as (Ed & Ep & _).
  cbn [CycleAnalysis.postHalvingData]. rewrite Ed, Ep. fold pk. unfold crashScan.
  pose proof (fold_scan (peakPrice pk) (skipn (peakIndex pk) post) crash0 below_0) as Hs.
  destruct (find (qualifies (peakPrice pk)) (skipn (peakIndex pk) post)) as [d|] eqn:E.
  - destruct (find_first _ _ _ E) as (before & after & Hsplit & Hb & Hd).
    assert (Hne : PriceData.date d <> ""%string).
    { apply Hdated. apply (proj1 (filter_In (inPost T (analysisEnd getTime now events index T)) d data)).
      apply (In_skipn (peakIndex pk)).
      change (In d (skipn (peakIndex pk) post)). rewrite Hsplit.
      apply in_or_app. right. left. reflexivity. }
    rewrite Hsplit.
    destruct (fold_first (peakPrice pk) before d after crash0 below_0 Hb Hd Hne) as (F1 & F2).
    rewrite F1, F2. intros [= <-].
    exists before, d, after. repeat split; auto.
    + apply (fold_first (peakPrice pk) before d (firstn k after) crash0 below_0 Hb Hd Hne).
    + apply (fold_first (peakPrice pk) before d (firstn k after) crash0 below_0 Hb Hd Hne).
  - destruct Hs as (H0 & _). rewrite H0. discriminate.
Qed.

(** An instance of C1: the series that rises, peaks and falls. *)
Lemma crash_is_first_qualifying_sample_witness :
  In Scenario.rise_record
     (analyzeHalvingCyclesOn IsoDate.parse Scenario.now0 HALVING_EVENTS Scenario.rise_and_fall) /\
  dated Scenario.rise_and_fall /\
  exists index halving T hpd,
    analyzedAt IsoDate.parse Scenario.now0 HALVING_EVENTS Scenario.rise_and_fall
      index halving T hpd Scenario.rise_record.
Proof.
  assert (H1 : In Scenario.rise_record
     (analyzeHalvingCyclesOn IsoDate.parse Scenario.now0 HALVING_EVENTS Scenario.rise_and_fall))
    by (vm_compute; left; reflexivity).
  assert (H2 : dated Scenario.rise_and_fall).
  { intros d H. cbn in H.
    repeat (destruct H as [<- | H]; [discriminate|]). destruct H. }
  split; [exact H1 | split; [exact H2|]].
  destruct (crash_is_first_qualifying_sample IsoDate.parse Scenario.now0 HALVING_EVENTS Scenario.rise_and_fall
              Scenario.rise_record H1 H2) as (i & h & T & hpd & Hat & _).
  exists i, h, T, hpd. exact Hat.
Defined.


(** What the crash scan leaves: nothing when no scanned sample qualifies,
    and otherwise the date and price of a scanned sample that does. *)
Lemma crashScan_outcome peak from post :
  let cr := crashScan peak from post in
  (crashDate cr = None /\ crashPrice cr = None /\
   Forall (fun d => qualifies peak d = false) (skipn from post))
  \/
  (exists d, In d (skipn from post) /\ qualifies peak d = true /\
             crashDate cr = Some (PriceData.date d) /\
             crashPrice cr = Some (PriceData.price d)).
Proof.
  unfold crashScan. cbn zeta.
  pose proof (fold_scan peak (skipn from post) crash0 below_0) as Hs.
  destruct (find (qualifies peak) (skipn from post)) eqn:E.
  - right. destruct Hs as (d & Hin & Hq & Hd & Hp & _). exists d. auto.
  - left. destruct Hs as (Hd & Hp & _). repeat split; auto.
    apply find_none_Forall, E.
Qed.

(** C2, as the claim states it, fails on the series that dips before its
    peak: no crash is reported, though a sample of the post-event window
    lies 95% under the peak price. *)
Lemma crash_null_counterexample :
  analyzeHalvingCycles IsoDate.parse Scenario.now0 Scenario.dip_then_peak
    = [Scenario.dip_record] /\
  ~ (Post.crashDate (CycleAnalysis.postHalvingData Scenario.dip_record) = None <->
     forall d,
       In d (postHalvingData IsoDate.parse Scenario.now0 HALVING_EVENTS 0
               Scenario.T1 Scenario.dip_then_peak) ->
       JS.geb (drawdown (Post.peakPrice (CycleAnalysis.postHalvingData Scenario.dip_record)) d)
              30%float = false).
Proof.
  split; [vm_compute; reflexivity|].
  intros [H _]. specialize (H eq_refl).
  specialize (H (PriceData.mk "2012-11-29" 50 (Scenario.T1 + DAY))).
  assert (Hin : In (PriceData.mk "2012-11-29" 50 (Scenario.T1 + DAY))
                  (postHalvingData IsoDate.parse Scenario.now0 HALVING_EVENTS 0
                     Scenario.T1 Scenario.dip_then_peak))
    by (vm_compute; left; reflexivity).
  specialize (H Hin). vm_compute in H. discriminate.
Qed.

(** C2, amended: the crash date is null exactly when no sample from the
    peak's index to the end of the post-event window has a drawdown of at
    least 30 from the peak price; and when it is not null, with positive
    prices, [percentageFromPeak] is [(crashPrice - peakPrice) / peakPrice *
    100] and is at most -30. *)
Theorem crash_null_iff_no_drawdown_from_peak getTime now events data r :
  In r (analyzeHalvingCyclesOn getTime now events data) ->
  strictly_positive data ->
  exists index halving T hpd,
    analyzedAt getTime now events data index halving T hpd r /\
    let post := postHalvingData getTime now events index T data in
    let pk := findPeak halving (PriceData.price hpd) post in
    let p := CycleAnalysis.postHalvingData r in
    (Post.crashDate p = None <->
     forall d, In d (skipn (peakIndex pk) post) ->
       JS.geb (drawdown (Post.peakPrice p) d) 30%float = false) /\
    (forall cd, Post.crashDate p = Some cd ->
       exists c v,
         Post.crashPrice p = Some c /\
         Post.percentageFromPeak p = Some v /\
         v = (((c - Post.peakPrice p) / Post.peakPrice p) * 100)%float /\
         PrimFloat.leb v (-30)%float = true).
Proof.
  intros Hin Hpos.
  destruct (produced_inv _ _ _ _ _ Hin) as (index & halving & T & hpd & Hat).
  exists index, halving, T, hpd. split; [exact Hat|].
  destruct Hat as (Hn & HT & HF & ->). cbn zeta.
  set (post := postHalvingData getTime now events index T data).
  set (pk := findPeak halving (PriceData.price hpd) post).
  destruct (post_crash_fields getTime halving T hpd post) as (Ed & Ep & Epk & _ & Ef).
  cbn [CycleAnalysis.postHalvingData]. rewrite Ed, Ep, Epk, Ef. fold pk.
  destruct (crashScan_outcome (peakPrice pk) (peakIndex pk) post)
    as [(Hd & Hp & Hall) | (d & Hind & Hq & Hd & Hp)]; rewrite Hd, Hp.
  - split; [| intros cd; discriminate].
    split; [| reflexivity]. intros _ d Hd'.
    rewrite Forall_forall in Hall. apply (Hall d Hd').
  - split.
    + split; [discriminate|]. intros H. specialize (H d Hind).
      unfold qualifies in Hq. congruence.
    + intros cd _.
      assert (Ht : JS.truthy (PriceData.price d) = true).
      { apply positive_truthy, Hpos.
        apply (proj1 (filter_In (inPost T (analysisEnd getTime now events index T)) d data)).
        apply (In_skipn (peakIndex pk)). exact Hind. }
      rewrite Ht. do 2 eexists. repeat split.
      apply drawdown_fall. exact Hq.
Qed.

(** An instance of C2: the series that rises, peaks and falls. *)
Lemma crash_null_iff_no_drawdown_from_peak_witness :
  In Scenario.rise_record
     (analyzeHalvingCyclesOn IsoDate.parse Scenario.now0 HALVING_EVENTS Scenario.rise_and_fall) /\
  strictly_positive Scenario.rise_and_fall /\
  exists index halving T hpd,
    analyzedAt IsoDate.parse Scenario.now0 HALVING_EVENTS Scenario.rise_and_fall
      index halving T hpd Scenario.rise_record.
Proof.
  assert (H1 : In Scenario.rise_record
     (analyzeHalvingCyclesOn IsoDate.parse Scenario.now0 HALVING_EVENTS Scenario.rise_and_fall))
    by (vm_compute; left; reflexivity).
  assert (H2 : strictly_positive Scenario.rise_and_fall).
  { intros d H. cbn in H.
    repeat (destruct H as [<- | H]; [vm_compute; reflexivity|]). destruct H. }
  split; [exact H1 | split; [exact H2|]].
  destruct (crash_null_iff_no_drawdown_from_peak IsoDate.parse Scenario.now0 HALVING_EVENTS
              Scenario.rise_and_fall Scenario.rise_record H1 H2) as (i & h & T & hpd & Hat & _).
  exists i, h, T, hpd. exact Hat.
Defined.

(** C9: with strictly positive prices, the three crash fields of a record
    are all null or all non-null. *)
Theorem crash_fields_all_or_none getTime now events data r :
  In r (analyzeHalvingCyclesOn getTime now events data) ->
  strictly_positive data ->
  let p := CycleAnalysis.postHalvingData r in
  (Post.crashDate p = None /\ Post.crashPrice p = None /\ Post.percentageFromPeak p = None)
  \/
  (exists cd c v,
     Post.crashDate p = Some cd /\ Post.crashPrice p = Some c /\
     Post.percentageFromPeak p = Some v).
Proof.
  intros Hin Hpos.
  destruct (produced_inv _ _ _ _ _ Hin) as (index & halving & T & hpd & Hat).
  destruct Hat as (Hn & HT & HF & ->). cbn zeta.
  set (post := postHalvingData getTime now events index T data).
  set (pk := findPeak halving (PriceData.price hpd) post).
  destruct (post_crash_fields getTime halving T hpd post) as (Ed & Ep & _ & _ & Ef).
  cbn [CycleAnalysis.postHalvingData]. rewrite Ed, Ep, Ef. fold pk.
  destruct (crashScan_outcome (peakPrice pk) (peakIndex pk) post)
    as [(Hd & Hp & _) | (d & Hind & Hq & Hd & Hp)]; rewrite Hd, Hp.
  - left. auto.
  - right.
    assert (Ht : JS.truthy (PriceData.price d) = true).
    { apply positive_truthy, Hpos.
      apply (proj1 (filter_In (inPost T (analysisEnd getTime now events index T)) d data)).
      apply (In_skipn (peakIndex pk)). exact Hind. }
    rewrite Ht. do 3 eexists. repeat split.
Qed.

(** An instance of C9: the series that rises, peaks and falls. *)
Lemma crash_fields_all_or_none_witness :
  strictly_positive Scenario.rise_and_fall /\
  exists cd c v,
    Post.crashDate (CycleAnalysis.postHalvingData Scenario.rise_record) = Some cd /\
    Post.crashPrice (CycleAnalysis.postHalvingData Scenario.rise_record) = Some c /\
    Post.percentageFromPeak (CycleAnalysis.postHalvingData Scenario.rise_record) = Some v.
Proof.
  assert (H1 : In Scenario.rise_record
     (analyzeHalvingCyclesOn IsoDate.parse Scenario.now0 HALVING_EVENTS Scenario.rise_and_fall))
    by (vm_compute; left; reflexivity).
  assert (H2 : strictly_positive Scenario.rise_and_fall).
  { intros d H. cbn in H.
    repeat (destruct H as [<- | H]; [vm_compute; reflexivity|]). destruct H. }
  split; [exact H2|].
  destruct (crash_fields_all_or_none IsoDate.parse Scenario.now0 HALVING_EVENTS
              Scenario.rise_and_fall Scenario.rise_record H1 H2) as [(H & _) | H].
  - discriminate H.
  - exact H.
Defined.

(* ================================================================== *)
(** * The windows *)

Lemma inPre_spec T d :
  inPre T d = true <->
  T - 365 * DAY <= PriceData.timestamp d <= T.
Proof. unfold inPre. cbn zeta. rewrite andb_true_iff, !Z.leb_le. tauto. Qed.

Lemma inPost_spec T e d :
  inPost T (Some e) d = true <-> T < PriceData.timestamp d <= e.
Proof. unfold inPost. rewrite andb_true_iff, Z.ltb_lt, Z.leb_le. tauto. Qed.

Lemma inChart_spec T d :
  inChart T d = true <->
  T - 365 * DAY <= PriceData.timestamp d <= T + 550 * DAY.
Proof. unfold inChart. cbn zeta. rewrite andb_true_iff, !Z.leb_le. tauto. Qed.

(** The bound of the post-event window when the date of the next event,
    if there is one, is a valid date. *)
Lemma analysisEnd_valid getTime now events index T nextT :
  match nth_error events (S index) with
  | Some next =>
      HalvingEvent.date next <> EmptyString /\
      getTime (HalvingEvent.date next) = Some nextT
  | None => nextT = now
  end ->
  analysisEnd getTime now events index T
    = Some (Z.min (T + 550 * DAY) (Z.min nextT now)).
Proof.
  unfold analysisEnd, nextHalvingTimestamp, postHalvingEnd.
  destruct (nth_error events (S index)) as [next|].
  - intros (Hne & ->). destruct (HalvingEvent.date next); [congruence | reflexivity].
  - intros ->. reflexivity.
Qed.

(** C3: for an event of the configured list with timestamp [T], the
    pre-event window is the series filtered by [T - 365 days <= timestamp
    <= T], and the post-event window the series filtered by [T < timestamp
    <= min(T + 550 days, nextT, now)], [nextT] being the timestamp of the
    next configured event, or [now] when there is none. *)
Theorem windows_hold_exactly_the_samples_in_range
    getTime now events data index halving T nextT :
  nth_error events index = Some halving ->
  getTime (HalvingEvent.date halving) = Some T ->
  match nth_error events (S index) with
  | Some next =>
      HalvingEvent.date next <> EmptyString /\
      getTime (HalvingEvent.date next) = Some nextT
  | None => nextT = now
  end ->
  let pre := preHalvingData T data in
  let post := postHalvingData getTime now events index T data in
  let bound := Z.min (T + 550 * DAY) (Z.min nextT now) in
  (exists keep,
     pre = filter keep data /\
     forall d, keep d = true <-> T - 365 * DAY <= PriceData.timestamp d <= T) /\
  (exists keep,
     post = filter keep data /\
     forall d, keep d = true <-> T < PriceData.timestamp d <= bound) /\
  (forall d, In d pre <->
             In d data /\ T - 365 * DAY <= PriceData.timestamp d <= T) /\
  (forall d, In d post <->
             In d data /\ T < PriceData.timestamp d <= bound).
Proof.
  intros _ _ Hnext. cbn zeta. unfold preHalvingData, postHalvingData.
  rewrite (analysisEnd_valid getTime now events index T nextT Hnext).
  split; [| split; [| split]].
  - exists (inPre T). split; [reflexivity | apply inPre_spec].
  - eexists. split; [reflexivity | apply inPost_spec].
  - intros d. rewrite filter_In, inPre_spec. tauto.
  - intros d. rewrite filter_In, inPost_spec. tauto.
Qed.

(** An instance of C3: the first configured event, whose window is closed
    by the 550 days. *)
Lemma windows_hold_exactly_the_samples_in_range_witness :
  List.length (preHalvingData Scenario.T1 Scenario.rise_and_fall) = 2%nat /\
  forall d,
    In d (postHalvingData IsoDate.parse Scenario.now0 HALVING_EVENTS 0 Scenario.T1
            Scenario.rise_and_fall) <->
    In d Scenario.rise_and_fall /\
    Scenario.T1 < PriceData.timestamp d <=
      Z.min (Scenario.T1 + 550 * DAY) (Z.min 1468022400000 Scenario.now0).
Proof.
  split; [reflexivity|].
  apply (windows_hold_exactly_the_samples_in_range IsoDate.parse Scenario.now0
           HALVING_EVENTS Scenario.rise_and_fall 0 (HalvingEvent.mk "2012-11-28" 210000 1)
           Scenario.T1 1468022400000).
  - reflexivity.
  - reflexivity.
  - split; [discriminate | reflexivity].
Defined.

(* ================================================================== *)
(** * The peak of a record *)

Lemma priced_comparable data d :
  priced data -> In d data -> comparable (PriceData.price d).
Proof. intros H Hd. apply positive_price_comparable, H, Hd. Qed.

Lemma geb_fle a b : JS.geb a b = true <-> fle b a.
Proof. unfold JS.geb. apply leb_fle. Qed.

Lemma gtb_flt a b : JS.gtb a b = true <-> flt b a.
Proof. unfold JS.gtb. apply ltb_flt. Qed.

(** C4: the peak search runs over the post-event window in order, from the
    halving-day price and date; the peak price is at least the halving
    price and at least every price of the window; when no price of the
    window exceeds the halving price the peak is the halving day, with a
    gain of 0; otherwise the peak is the earliest sample that carries the
    maximum: every sample before it is strictly below it. *)
Theorem peak_is_earliest_maximum getTime now events data r :
  In r (analyzeHalvingCyclesOn getTime now events data) ->
  priced data ->
  exists index halving T hpd,
    analyzedAt getTime now events data index halving T hpd r /\
    let post := postHalvingData getTime now events index T data in
    let p := CycleAnalysis.postHalvingData r in
    let halvingPrice := Pre.halvingPrice (CycleAnalysis.preHalvingData r) in
    halvingPrice = PriceData.price hpd /\
    JS.geb (Post.peakPrice p) halvingPrice = true /\
    (forall d, In d post -> JS.geb (Post.peakPrice p) (PriceData.price d) = true) /\
    ((forall d, In d post -> JS.gtb (PriceData.price d) halvingPrice = false) ->
       Post.peakPrice p = halvingPrice /\
       Post.peakDate p = HalvingEvent.date halving /\
       Post.percentageGain p = 0%float) /\
    ((exists d, In d post /\ JS.gtb (PriceData.price d) halvingPrice = true) ->
       exists before d after,
         post = before ++ d :: after /\
         Post.peakPrice p = PriceData.price d /\
         Post.peakDate p = PriceData.date d /\
         peakIndex (findPeak halving halvingPrice post) = List.length before /\
         forall x, In x before -> JS.gtb (PriceData.price d) (PriceData.price x) = true).
Proof.
  intros Hin Hpriced.
  destruct (produced_inv _ _ _ _ _ Hin) as (index & halving & T & hpd & Hat).
  exists index, halving, T, hpd. split; [exact Hat|].
  destruct Hat as (Hn & HT & HF & ->). cbn zeta.
  set (post := postHalvingData getTime now events index T data).
  cbn [CycleAnalysis.postHalvingData CycleAnalysis.preHalvingData preAnalysis
       postAnalysis Pre.halvingPrice Post.peakPrice Post.peakDate Post.percentageGain].
  set (hp := PriceData.price hpd).
  set (seed := mkPeak hp (HalvingEvent.date halving) 0).
  assert (Hhp : positive_price hp = true)
    by (apply Hpriced; apply (find_some _ _ HF)).
  assert (Hseed : comparable (peakPrice seed))
    by (apply positive_price_comparable, Hhp).
  assert (Hpost : Forall (fun d => comparable (PriceData.price d)) post).
  { apply Forall_forall. intros d Hd. apply (priced_comparable data); auto.
    apply (proj1 (filter_In _ d data) Hd). }
  destruct (peakScan_ge post 0 seed Hseed Hpost) as (Hge1 & Hge2).
  unfold findPeak. fold seed.
  split; [reflexivity|]. split; [apply geb_fle, Hge1|].
  split; [| split].
  - intros d Hd. apply geb_fle. rewrite Forall_forall in Hge2. apply Hge2, Hd.
  - intros Hno. rewrite (peakScan_seed post 0 seed).
    + cbn. repeat split. apply percentChange_same, Hhp.
    + apply Forall_forall. exact Hno.
  - intros (d & Hd & Hgt).
    destruct (peakScan_first post 0 seed Hseed Hpost)
      as [(_ & Hno) | (before & x & after & Hsplit & Heq & _ & Hb)].
    + rewrite Forall_forall in Hno. specialize (Hno d Hd).
      change (JS.gtb (PriceData.price d) hp = false) in Hno. congruence.
    + exists before, x, after. rewrite Heq. cbn. repeat split; auto.
      intros y Hy. apply gtb_flt. rewrite Forall_forall in Hb. apply Hb, Hy.
Qed.

(** An instance of C4: the series that rises, peaks and falls. *)
Lemma peak_is_earliest_maximum_witness :
  priced Scenario.rise_and_fall /\
  exists index halving T hpd,
    analyzedAt IsoDate.parse Scenario.now0 HALVING_EVENTS Scenario.rise_and_fall
      index halving T hpd Scenario.rise_record.
Proof.
  assert (H1 : In Scenario.rise_record
     (analyzeHalvingCyclesOn IsoDate.parse Scenario.now0 HALVING_EVENTS Scenario.rise_and_fall))
    by (vm_compute; left; reflexivity).
  assert (H2 : priced Scenario.rise_and_fall).
  { intros d H. cbn in H.
    repeat (destruct H as [<- | H]; [vm_compute; reflexivity|]). destruct H. }
  split; [exact H2|].
  destruct (peak_is_earliest_maximum IsoDate.parse Scenario.now0 HALVING_EVENTS
              Scenario.rise_and_fall Scenario.rise_record H1 H2) as (i & h & T & hpd & Hat & _).
  exists i, h, T, hpd. exact Hat.
Defined.

(* ================================================================== *)
(** * Events without a sample on their day *)

Lemma find_none_all {A} (f : A -> bool) (l : list A) :
  (forall x, In x l -> f x = false) -> find f l = None.
Proof. intros H. apply find_none_Forall, Forall_forall, H. Qed.

Lemma nth_error_decompose {A} (l : list A) (i : nat) (x : A) :
  nth_error l i = Some x ->
  l = firstn i l ++ x :: skipn (S i) l /\ List.length (firstn i l) = i.
Proof.
  revert i; induction l as [|a l IH]; intros [|i] H; cbn in *; try discriminate.
  - injection H as ->. auto.
  - destruct (IH i H) as (E & L). split; [f_equal; exact E | f_equal; exact L].
Qed.

(** C5: an event with no sample within a day of its date gets no record;
    the result is the records of the events before it followed by those of
    the events after it, each the record its own event gets, and it is
    shorter than the list of events. *)
Theorem event_without_sample_is_left_out getTime now events data index halving :
  nth_error events index = Some halving ->
  (forall T d, getTime (HalvingEvent.date halving) = Some T -> In d data ->
               DAY <= Z.abs (PriceData.timestamp d - T)) ->
  analyzeCycle getTime now events data index halving = None /\
  analyzeHalvingCyclesOn getTime now events data =
    forEachFrom getTime now events data (firstn index events) 0 [] ++
    forEachFrom getTime now events data (skipn (S index) events) (S index) [] /\
  (forall r, In r (analyzeHalvingCyclesOn getTime now events data) <->
     exists j h, j <> index /\ nth_error events j = Some h /\
                 analyzeCycle getTime now events data j h = Some r) /\
  (List.length (analyzeHalvingCyclesOn getTime now events data) < List.length events)%nat.
Proof.
  intros Hn Hfar.
  assert (Hnone : analyzeCycle getTime now events data index halving = None).
  { unfold analyzeCycle.
    destruct (getTime (HalvingEvent.date halving)) as [T|] eqn:ET; [|reflexivity].
    rewrite find_none_all; [reflexivity|].
    intros d Hd. unfold nearHalving. apply Z.ltb_ge. apply (Hfar T d eq_refl Hd). }
  destruct (nth_error_decompose events index halving Hn) as (Esplit & Elen).
  assert (Erun : analyzeHalvingCyclesOn getTime now events data =
    forEachFrom getTime now events data (firstn index events) 0 [] ++
    forEachFrom getTime now events data (skipn (S index) events) (S index) []).
  { unfold analyzeHalvingCyclesOn. rewrite Esplit at 2.
    rewrite forEachFrom_app, forEachFrom_cons, Elen. cbn [Nat.add].
    rewrite Hnone. reflexivity. }
  split; [exact Hnone|]. split; [exact Erun|]. split.
  - intros r. unfold analyzeHalvingCyclesOn. rewrite In_forEachFrom. cbn [Nat.add].
    split; intros (j & h & H1 & H2).
    + exists j, h. repeat split; auto. intros ->. congruence.
    + exists j, h. tauto.
  - rewrite Erun, length_app.
    pose proof (forEachFrom_length getTime now events data (firstn index events) 0).
    pose proof (forEachFrom_length getTime now events data (skipn (S index) events) (S index)).
    pose proof (f_equal (@List.length _) Esplit) as HL.
    rewrite length_app in HL. cbn [List.length] in HL. lia.
Qed.

(** An instance of C5: the second configured event, of which the series
    that ends in 2013 has no sample. *)
Lemma event_without_sample_is_left_out_witness :
  analyzeCycle IsoDate.parse Scenario.now0 HALVING_EVENTS Scenario.rise_and_fall 1
    (HalvingEvent.mk "2016-07-09" 420000 2) = None /\
  (List.length (analyzeHalvingCyclesOn IsoDate.parse Scenario.now0 HALVING_EVENTS
                  Scenario.rise_and_fall) < List.length HALVING_EVENTS)%nat.
Proof.
  destruct (event_without_sample_is_left_out IsoDate.parse Scenario.now0 HALVING_EVENTS
              Scenario.rise_and_fall 1 (HalvingEvent.mk "2016-07-09" 420000 2))
    as (H1 & _ & _ & H2).
  - reflexivity.
  - intros T d HT Hd. vm_compute in HT. injection HT as <-.
    cbn in Hd. repeat (destruct Hd as [<- | Hd]; [vm_compute; discriminate|]). destruct Hd.
  - split; [exact H1 | exact H2].
Defined.

(* ================================================================== *)
(** * The formulas of a record *)

(** C6: in a record, each percentage is [(end - start) / start * 100]:
    from [startPrice] to [halvingPrice] before the event, from
    [halvingPrice] to [peakPrice] after it, and from [peakPrice] to
    [crashPrice] for [percentageFromPeak]; [daysToPeak] is the floor of
    the time from the halving date to the peak date, in days. *)
Theorem percentages_and_days_follow_the_formulas getTime now events data r :
  In r (analyzeHalvingCyclesOn getTime now events data) ->
  let pre := CycleAnalysis.preHalvingData r in
  let p := CycleAnalysis.postHalvingData r in
  Pre.percentageGain pre
    = (((Pre.halvingPrice pre - Pre.startPrice pre) / Pre.startPrice pre) * 100)%float /\
  Post.percentageGain p
    = (((Post.peakPrice p - Pre.halvingPrice pre) / Pre.halvingPrice pre) * 100)%float /\
  (forall v, Post.percentageFromPeak p = Some v ->
     exists c, Post.crashPrice p = Some c /\
               v = (((c - Post.peakPrice p) / Post.peakPrice p) * 100)%float) /\
  exists T,
    getTime (CycleAnalysis.halvingDate r) = Some T /\
    Post.daysToPeak p
      = option_map (fun tp => (tp - T) / DAY) (getTime (Post.peakDate p)) /\
    forall n, Post.daysToPeak p = Some n ->
      exists tp, getTime (Post.peakDate p) = Some tp /\
                 n * DAY <= tp - T < (n + 1) * DAY.
Proof.
  intros Hin.
  destruct (produced_inv _ _ _ _ _ Hin) as (index & halving & T & hpd & Hat).
  destruct Hat as (Hn & HT & HF & ->). cbn zeta.
  cbn [CycleAnalysis.postHalvingData CycleAnalysis.preHalvingData CycleAnalysis.halvingDate
       preAnalysis postAnalysis Pre.halvingPrice Pre.startPrice Pre.percentageGain
       Post.peakPrice Post.peakDate Post.percentageGain Post.crashPrice
       Post.percentageFromPeak Post.daysToPeak].
  split; [reflexivity|]. split; [reflexivity|]. split.
  - intros v. destruct (crashPrice _) as [c|]; [|discriminate].
    destruct (JS.truthy c); [|discriminate].
    intros [= <-]. exists c. split; reflexivity.
  - exists T. split; [exact HT|]. split; [reflexivity|].
    intros n. destruct (getTime (peakDate _)) as [tp|]; cbn; [|discriminate].
    intros [= <-]. exists tp. split; [reflexivity|].
    unfold DAY. Z.to_euclidean_division_equations. lia.
Qed.

(** An instance of C6: the series that rises, peaks and falls. *)
Lemma percentages_and_days_follow_the_formulas_witness :
  In Scenario.rise_record
     (analyzeHalvingCyclesOn IsoDate.parse Scenario.now0 HALVING_EVENTS Scenario.rise_and_fall) /\
  Post.percentageGain (CycleAnalysis.postHalvingData Scenario.rise_record)
    = (((1000 - 200) / 200) * 100)%float.
Proof.
  assert (H1 : In Scenario.rise_record
     (analyzeHalvingCyclesOn IsoDate.parse Scenario.now0 HALVING_EVENTS Scenario.rise_and_fall))
    by (vm_compute; left; reflexivity).
  split; [exact H1|].
  destruct (percentages_and_days_follow_the_formulas IsoDate.parse Scenario.now0
              HALVING_EVENTS Scenario.rise_and_fall Scenario.rise_record H1) as (_ & H & _).
  exact H.
Defined.

(* ================================================================== *)
(** * The empty pre-event window *)

(** C7: an analyzed event whose pre-event window is empty still gets its
    record; in it [startPrice] is 0 and the gain before the event, a
    division by that zero, is not a finite number; the part of the record
    after the event is computed as for any other event. *)
Theorem empty_pre_window_gives_non_finite_gain
    getTime now events data index halving T hpd :
  nth_error events index = Some halving ->
  getTime (HalvingEvent.date halving) = Some T ->
  find (nearHalving T) data = Some hpd ->
  preHalvingData T data = [] ->
  exists r,
    analyzeCycle getTime now events data index halving = Some r /\
    In r (analyzeHalvingCyclesOn getTime now events data) /\
    Pre.startPrice (CycleAnalysis.preHalvingData r) = 0%float /\
    JS.isFinite (Pre.percentageGain (CycleAnalysis.preHalvingData r)) = false /\
    Pre.daysAnalyzed (CycleAnalysis.preHalvingData r) = 0%nat /\
    CycleAnalysis.postHalvingData r =
      postAnalysis getTime halving T hpd (postHalvingData getTime now events index T data).
Proof.
  intros Hn HT HF Hpre.
  eexists. 
  destruct (analyzedAt_produced getTime now events data index halving T hpd _
              (conj Hn (conj HT (conj HF eq_refl)))) as (H1 & H2).
  split; [exact H1|]. split; [exact H2|].
  cbn [CycleAnalysis.preHalvingData CycleAnalysis.postHalvingData preAnalysis
       Pre.startPrice Pre.percentageGain Pre.daysAnalyzed].
  rewrite Hpre. cbn [hd_error option_map JS.or_num List.length].
  repeat split. apply percentChange_from_zero.
Qed.

(** An instance of C7: the series that starts an hour after the event. *)
Lemma empty_pre_window_gives_non_finite_gain_witness :
  preHalvingData Scenario.T1 Scenario.late_start = [] /\
  analyzeCycle IsoDate.parse Scenario.now0 HALVING_EVENTS Scenario.late_start 0
    (HalvingEvent.mk "2012-11-28" 210000 1) = Some Scenario.late_record /\
  Pre.startPrice (CycleAnalysis.preHalvingData Scenario.late_record) = 0%float /\
  JS.isFinite (Pre.percentageGain (CycleAnalysis.preHalvingData Scenario.late_record)) = false.
Proof.
  split; [reflexivity|].
  destruct (empty_pre_window_gives_non_finite_gain IsoDate.parse Scenario.now0
              HALVING_EVENTS Scenario.late_start 0 (HalvingEvent.mk "2012-11-28" 210000 1)
              Scenario.T1 (PriceData.mk "2012-11-28" 100 (Scenario.T1 + 3600000)))
    as (r & H1 & _ & H2 & H3 & _); try reflexivity.
  assert (E : analyzeCycle IsoDate.parse Scenario.now0 HALVING_EVENTS Scenario.late_start 0
                (HalvingEvent.mk "2012-11-28" 210000 1) = Some Scenario.late_record)
    by (vm_compute; reflexivity).
  rewrite E in H1. injection H1 as <-. auto.
Defined.

(* ================================================================== *)
(** * The chart's data *)

(** The configured events, one by one. *)
Lemma HALVING_EVENTS_nth index halving :
  nth_error HALVING_EVENTS index = Some halving ->
  (index = 0%nat /\ halving = HalvingEvent.mk "2012-11-28" 210000 1) \/
  (index = 1%nat /\ halving = HalvingEvent.mk "2016-07-09" 420000 2) \/
  (index = 2%nat /\ halving = HalvingEvent.mk "2020-05-11" 630000 3) \/
  (index = 3%nat /\ halving = HalvingEvent.mk "2024-04-20" 840000 4).
Proof.
  destruct index as [|[|[|[|index]]]]; cbn; intros H.
  1-4: injection H as <-; tauto.
  destruct index; discriminate.
Qed.

(** X12: for the configured events and a series that holds no sample
    later than [now], the chart data of a cycle, the series filtered by
    [T - 365 days <= timestamp <= T + 550 days], are exactly the samples of
    the cycle's pre-event and post-event windows. *)
Theorem chart_data_are_the_windows_when_no_sample_is_ahead getTime now priceData :
  (forall h, In h HALVING_EVENTS ->
             getTime (HalvingEvent.date h) = IsoDate.parse (HalvingEvent.date h)) ->
  getFilteredData getTime all priceData = priceData /\
  forall index halving,
    nth_error HALVING_EVENTS index = Some halving ->
    let chart := getFilteredData getTime (cycleNo (HalvingEvent.cycle halving)) priceData in
    exists T,
      getTime (HalvingEvent.date halving) = Some T /\
      (exists keep,
         chart = filter keep priceData /\
         forall d, keep d = true <->
                   T - 365 * DAY <= PriceData.timestamp d <= T + 550 * DAY) /\
      ((forall d, In d priceData -> PriceData.timestamp d <= now) ->
       forall d, In d chart <->
                 In d (preHalvingData T priceData) \/
                 In d (postHalvingData getTime now HALVING_EVENTS index T priceData)).
Proof.
  intros Hiso. split; [reflexivity|].
  intros index halving Hn. cbn zeta.
  assert (G1 : getTime "2012-11-28"%string = Some 1354060800000)
    by (apply (Hiso (HalvingEvent.mk "2012-11-28" 210000 1)); cbn; tauto).
  assert (G2 : getTime "2016-07-09"%string = Some 1468022400000)
    by (apply (Hiso (HalvingEvent.mk "2016-07-09" 420000 2)); cbn; tauto).
  assert (G3 : getTime "2020-05-11"%string = Some 1589155200000)
    by (apply (Hiso (HalvingEvent.mk "2020-05-11" 630000 3)); cbn; tauto).
  assert (G4 : getTime "2024-04-20"%string = Some 1713571200000)
    by (apply (Hiso (HalvingEvent.mk "2024-04-20" 840000 4)); cbn; tauto).
  destruct (HALVING_EVENTS_nth index halving Hn)
    as [(-> & ->) | [(-> & ->) | [(-> & ->) | (-> & ->)]]];
    unfold getFilteredData, getFilteredDataOn;
    cbn [find HALVING_EVENTS HalvingEvent.cycle HalvingEvent.date Z.eqb Pos.eqb];
    rewrite ?G1, ?G2, ?G3, ?G4;
    (eexists; split; [reflexivity|]; split;
     [ eexists; split; [reflexivity | apply inChart_spec]
     | intros Hnow d;
       unfold preHalvingData, postHalvingData, analysisEnd,
         nextHalvingTimestamp, postHalvingEnd;
       cbn [nth_error HALVING_EVENTS HalvingEvent.date JS.truthy_str];
       rewrite ?G1, ?G2, ?G3, ?G4;
       rewrite !filter_In, inChart_spec, inPre_spec;
       unfold JS.min2; rewrite inPost_spec;
       split;
       [ intros (Hd & H); specialize (Hnow d Hd); unfold DAY in *;
         match goal with
         | |- (_ /\ _ <= _ <= ?T) \/ _ =>
             destruct (Z_le_gt_dec (PriceData.timestamp d) T); [left | right]
         end; (split; [exact Hd | lia])
       | intros [(Hd & H) | (Hd & H)]; specialize (Hnow d Hd); unfold DAY in *;
         (split; [exact Hd | lia]) ] ]).
Qed.

(** An instance of X12: the first cycle, on the series that rises, peaks
    and falls. *)
Lemma chart_data_are_the_windows_when_no_sample_is_ahead_witness :
  getFilteredData IsoDate.parse all Scenario.rise_and_fall = Scenario.rise_and_fall /\
  exists T,
    IsoDate.parse "2012-11-28"%string = Some T /\
    forall d,
      In d (getFilteredData IsoDate.parse (cycleNo 1) Scenario.rise_and_fall) <->
      In d (preHalvingData T Scenario.rise_and_fall) \/
      In d (postHalvingData IsoDate.parse Scenario.now0 HALVING_EVENTS 0 T
              Scenario.rise_and_fall).
Proof.
  destruct (chart_data_are_the_windows_when_no_sample_is_ahead IsoDate.parse Scenario.now0
              Scenario.rise_and_fall (fun h _ => eq_refl)) as (H1 & H2).
  split; [exact H1|].
  destruct (H2 0%nat (HalvingEvent.mk "2012-11-28" 210000 1) eq_refl) as (T & HT & _ & H3).
  exists T. split; [exact HT|]. apply H3.
  intros d Hd. cbn in Hd.
  repeat (destruct Hd as [<- | Hd]; [vm_compute; discriminate|]). destruct Hd.
Defined.

(* ================================================================== *)
(** * The count of analyzed samples *)

(** C10: [daysAnalyzed] is the number of samples of the pre-event window;
    a series with one sample at each end of the 365 days has two, though
    the window spans the whole year; and with an empty pre-event window
    [startDate] is the halving date. *)
Theorem days_analyzed_counts_samples getTime now events :
  (forall data r,
     In r (analyzeHalvingCyclesOn getTime now events data) ->
     exists index halving T hpd,
       analyzedAt getTime now events data index halving T hpd r /\
       Pre.daysAnalyzed (CycleAnalysis.preHalvingData r)
         = List.length (preHalvingData T data) /\
       (preHalvingData T data = [] ->
        Pre.startDate (CycleAnalysis.preHalvingData r) = HalvingEvent.date halving)) /\
  (forall index halving T d1 p1 d2 p2,
     nth_error events index = Some halving ->
     getTime (HalvingEvent.date halving) = Some T ->
     let first := PriceData.mk d1 p1 (T - 365 * DAY) in
     let last := PriceData.mk d2 p2 T in
     exists r,
       analyzeCycle getTime now events [first; last] index halving = Some r /\
       PriceData.timestamp last - PriceData.timestamp first = 365 * DAY /\
       Pre.daysAnalyzed (CycleAnalysis.preHalvingData r) = 2%nat).
Proof.
  split.
  - intros data r Hin.
    destruct (produced_inv _ _ _ _ _ Hin) as (index & halving & T & hpd & Hat).
    exists index, halving, T, hpd. split; [exact Hat|].
    destruct Hat as (Hn & HT & HF & ->).
    cbn [CycleAnalysis.preHalvingData preAnalysis Pre.daysAnalyzed Pre.startDate].
    split; [reflexivity|]. intros ->. reflexivity.
  - intros index halving T d1 p1 d2 p2 Hn HT. cbn zeta.
    unfold analyzeCycle. rewrite HT.
    assert (F : find (nearHalving T)
                  [PriceData.mk d1 p1 (T - 365 * DAY); PriceData.mk d2 p2 T]
                = Some (PriceData.mk d2 p2 T)).
    { cbn [find]. unfold nearHalving. cbn [PriceData.timestamp].
      replace (T - 365 * DAY - T) with (- (365 * DAY)) by lia.
      replace (T - T) with 0 by lia. reflexivity. }
    rewrite F. eexists. split; [reflexivity|].
    cbn [PriceData.timestamp CycleAnalysis.preHalvingData preAnalysis Pre.daysAnalyzed].
    split; [lia|].
    unfold preHalvingData. cbn [filter]. unfold inPre. cbn [PriceData.timestamp].
    assert (E1 : (T - 365 * DAY <=? T - 365 * DAY) = true) by (apply Z.leb_le; lia).
    assert (E2 : (T - 365 * DAY <=? T) = true) by (apply Z.leb_le; unfold DAY; lia).
    assert (E3 : (T <=? T) = true) by (apply Z.leb_le; lia).
    rewrite E1, E2, E3. reflexivity.
Qed.

(** An instance of C10: the series that rises, peaks and falls has two
    samples in the year before the first event. *)
Lemma days_analyzed_counts_samples_witness :
  In Scenario.rise_record
     (analyzeHalvingCyclesOn IsoDate.parse Scenario.now0 HALVING_EVENTS Scenario.rise_and_fall) /\
  exists T,
    Pre.daysAnalyzed (CycleAnalysis.preHalvingData Scenario.rise_record)
      = List.length (preHalvingData T Scenario.rise_and_fall).
Proof.
  assert (H1 : In Scenario.rise_record
     (analyzeHalvingCyclesOn IsoDate.parse Scenario.now0 HALVING_EVENTS Scenario.rise_and_fall))
    by (vm_compute; left; reflexivity).
  split; [exact H1|].
  destruct (proj1 (days_analyzed_counts_samples IsoDate.parse Scenario.now0 HALVING_EVENTS)
              Scenario.rise_and_fall Scenario.rise_record H1)
    as (i & h & T & hpd & _ & H & _).
  exists T. exact H.
Defined.

(* ================================================================== *)
(** * Signs of differences and quotients *)

Lemma shr_1_nonneg mrs : 0 <= shr_m mrs -> 0 <= shr_m (shr_1 mrs).
Proof.
  destruct mrs as [m r s]. cbn. destruct m as [|[p|p|]|[p|p|]]; cbn; lia.
Qed.

Lemma iter_shr_1_nonneg p : forall mrs,
  0 <= shr_m mrs -> 0 <= shr_m (iter_pos shr_1 p mrs).
Proof.
  induction p as [p IH|p IH|]; cbn; intros mrs H.
  - apply IH, IH, shr_1_nonneg, H.
  - apply IH, IH, H.
  - apply shr_1_nonneg, H.
Qed.

Lemma shr_fexp_nonneg m e l :
  0 <= m -> 0 <= shr_m (fst (shr_fexp prec emax m e l)).
Proof.
  intros H. unfold shr_fexp, shr.
  assert (H0 : 0 <= shr_m (shr_record_of_loc m l))
    by (destruct l as [|[| |]]; cbn; exact H).
  destruct (fexp prec emax (Zdigits2 m + e) - e); cbn; auto.
  apply iter_shr_1_nonneg, H0.
Qed.

Lemma round_nearest_even_nonneg m l : 0 <= m -> 0 <= round_nearest_even m l.
Proof.
  intros H. destruct l as [|[| |]]; cbn; try lia.
  destruct (Z.even m); lia.
Qed.

(** Rounding a magnitude gives a value of the sign asked for, never NaN. *)
Lemma binary_round_aux_signed s m e l :
  0 <= m -> sf_signed s (binary_round_aux prec emax s m e l).
Proof.
  intros H. unfold binary_round_aux.
  pose proof (shr_fexp_nonneg m e l H) as H1.
  destruct (shr_fexp prec emax m e l) as [mrs' e']. cbn [fst] in H1.
  pose proof (shr_fexp_nonneg _ e' loc_Exact
                (round_nearest_even_nonneg _ (loc_of_shr_record mrs') H1)) as H2.
  destruct (shr_fexp prec emax _ e' loc_Exact) as [mrs'' e'']. cbn [fst] in H2.
  destruct (shr_m mrs'') as [|p|p]; [exact I | | lia].
  destruct (e'' <=? emax - prec); reflexivity.
Qed.

Lemma binary_round_signed s m e : sf_signed s (binary_round prec emax s m e).
Proof.
  unfold binary_round. destruct (shl_align _ _ _) as [mz ez].
  apply binary_round_aux_signed. lia.
Qed.

Lemma digits2_pos_bounds m :
  2 ^ (Z.pos (digits2_pos m) - 1) <= Z.pos m < 2 ^ Z.pos (digits2_pos m).
Proof.
  induction m as [m IH|m IH|]; cbn [digits2_pos].
  - rewrite Pos2Z.inj_succ. replace (Z.succ (Z.pos (digits2_pos m)) - 1) with (Z.pos (digits2_pos m)) by lia.
    rewrite Z.pow_succ_r by lia.
    replace (Z.pos (digits2_pos m)) with (Z.succ (Z.pos (digits2_pos m) - 1)) at 1 by lia.
    rewrite Z.pow_succ_r by lia. lia.
  - rewrite Pos2Z.inj_succ. replace (Z.succ (Z.pos (digits2_pos m)) - 1) with (Z.pos (digits2_pos m)) by lia.
    rewrite Z.pow_succ_r by lia.
    replace (Z.pos (digits2_pos m)) with (Z.succ (Z.pos (digits2_pos m) - 1)) at 1 by lia.
    rewrite Z.pow_succ_r by lia. lia.
  - cbn. lia.
Qed.

Lemma shl_align_value mx ex ez :
  ez <= ex -> Z.pos (fst (shl_align mx ex ez)) = Z.pos mx * 2 ^ (ex - ez).
Proof.
  intros H. unfold shl_align.
  destruct (ez - ex) as [|d|d] eqn:E; try lia.
  - replace (ex - ez) with 0 by lia. cbn [fst]. lia.
  - cbn [fst]. replace (ex - ez) with (Z.pos d) by lia.
    change (Pos.iter xO mx d) with (shift_pos d mx).
    rewrite shift_pos_correct, Z.pow_pos_fold. lia.
Qed.

(** On valid positive values, the order of the keys is the order of the
    aligned mantissas. *)
Lemma aligned_order mx ex my ey :
  bounded prec emax mx ex = true ->
  bounded prec emax my ey = true ->
  key_le (1, ey, Z.pos my) (1, ex, Z.pos mx) ->
  let ez := Z.min ex ey in
  Z.pos (fst (shl_align my ey ez)) <= Z.pos (fst (shl_align mx ex ez)).
Proof.
  intros Hx Hy Hle. cbn zeta.
  rewrite !shl_align_value by lia.
  unfold bounded, canonical_mantissa, fexp in Hx, Hy.
  apply andb_true_iff in Hx, Hy. destruct Hx as (Hx & _), Hy as (Hy & _).
  apply Z.eqb_eq in Hx, Hy.
  pose proof (digits2_pos_bounds mx) as Bx.
  pose proof (digits2_pos_bounds my) as By.
  destruct Hle as [Hlt | Heq].
  - unfold key_lt in Hlt.
    destruct Hlt as [Hlt | (_ & [Hlt | (He & Hm)])]; [lia | |].
    + (* ey < ex *)
      rewrite Z.min_r by lia. rewrite Z.sub_diag, Z.mul_1_r.
      assert (Dx : Z.pos (digits2_pos mx) = prec) by lia.
      assert (Dy : Z.pos (digits2_pos my) <= prec) by lia.
      rewrite Dx in Bx.
      assert (P1 : 2 ^ Z.pos (digits2_pos my) <= 2 ^ prec)
        by (apply Z.pow_le_mono_r; lia).
      assert (P2 : 2 ^ 1 <= 2 ^ (ex - ey))
        by (apply Z.pow_le_mono_r; lia).
      assert (P3 : 2 ^ prec = 2 ^ (prec - 1) * 2 ^ 1)
        by (rewrite <- Z.pow_add_r by (unfold prec; lia); f_equal; lia).
      nia.
    + subst ey. rewrite Z.min_id, Z.sub_diag. lia.
  - injection Heq as -> ->. rewrite Z.min_id, Z.sub_diag. lia.
Qed.

(** The sign of a difference of valid positive values follows their order. *)
Lemma SF64sub_signed_ge mx ex my ey :
  bounded prec emax mx ex = true ->
  bounded prec emax my ey = true ->
  key_le (1, ey, Z.pos my) (1, ex, Z.pos mx) ->
  sf_signed false (SF64sub (S754_finite false mx ex) (S754_finite false my ey)).
Proof.
  intros Hx Hy Hle. pose proof (aligned_order mx ex my ey Hx Hy Hle) as H.
  cbn zeta in H. unfold SF64sub, SFsub. cbn [cond_Zopp].
  destruct (_ - _) as [|p|p] eqn:E; cbn [binary_normalize].
  - exact I.
  - apply binary_round_signed.
  - exfalso. change IntDef.Z.min with Z.min in E. lia.
Qed.

Lemma SF64sub_signed_le mx ex my ey :
  bounded prec emax mx ex = true ->
  bounded prec emax my ey = true ->
  key_le (1, ex, Z.pos mx) (1, ey, Z.pos my) ->
  sf_signed true (SF64sub (S754_finite false mx ex) (S754_finite false my ey)).
Proof.
  intros Hx Hy Hle. pose proof (aligned_order my ey mx ex Hy Hx Hle) as H.
  cbn zeta in H. rewrite Z.min_comm in H. unfold SF64sub, SFsub. cbn [cond_Zopp].
  destruct (_ - _) as [|p|p] eqn:E; cbn [binary_normalize].
  - exact I.
  - exfalso. change IntDef.Z.min with Z.min in E. lia.
  - apply binary_round_signed.
Qed.

Lemma SF64div_signed s x my ey :
  sf_signed s x -> sf_signed s (SF64div x (S754_finite false my ey)).
Proof.
  unfold SF64div. destruct x as [sx|sx| |sx mx ex]; cbn; intros H; auto.
  - subst. destruct s; reflexivity.
  - subst sx. rewrite xorb_false_r.
    destruct (SFdiv_core_binary prec emax (Z.pos mx) ex (Z.pos my) ey) as [[mz ez] lz] eqn:E.
    apply binary_round_aux_signed.
    unfold SFdiv_core_binary in E.
    set (m' := match _ - _ - _ with Z0 => _ | Zpos _ => _ | Zneg _ => _ end) in E.
    assert (Hm : 0 <= m').
    { unfold m'. destruct (_ - _ - _); try lia. apply Z.shiftl_nonneg. lia. }
    pose proof (Z_div_mod m' (Z.pos my) ltac:(lia)) as D.
    destruct (Z.div_eucl m' (Z.pos my)) as [q r]. injection E as <- _ _.
    nia.
Qed.

Lemma SF64mul_signed s x my ey :
  sf_signed s x -> sf_signed s (SF64mul x (S754_finite false my ey)).
Proof.
  unfold SF64mul. destruct x as [sx|sx| |sx mx ex]; cbn; intros H; auto.
  - subst. destruct s; reflexivity.
  - subst sx. rewrite xorb_false_r. apply binary_round_aux_signed. lia.
Qed.

Lemma signed_false_nonneg x : sf_signed false x -> SFleb (S754_zero false) x = true.
Proof. destruct x as [s|s| |s m e]; cbn; intros H; subst; auto. Qed.

Lemma signed_true_below_30 x :
  sf_signed true x -> SFleb (Prim2SF 30%float) x = false.
Proof.
  change (Prim2SF 30%float) with (S754_finite false 8444249301319680 (-48)).
  destruct x as [s|s| |s m e]; cbn; intros H; subst; auto.
Qed.

(** A positive price, as a valid binary64 value. *)
Lemma positive_price_valid p :
  positive_price p = true ->
  exists m e, Prim2SF p = S754_finite false m e /\ bounded prec emax m e = true.
Proof.
  intros H. destruct (positive_price_finite p H) as (m & e & E).
  exists m, e. split; [exact E|].
  pose proof (Prim2SF_valid p) as V. rewrite E in V. exact V.
Qed.

Lemma fle_keys a b ka kb :
  fle a b -> fkey a = Some ka -> fkey b = Some kb -> key_le ka kb.
Proof.
  intros (x & y & Hx & Hy & H) Ha Hb. congruence.
Qed.

(** From a positive price up to a price that is no lower, the change is
    not negative. *)
Lemma percentChange_nonneg lo hi :
  positive_price lo = true -> positive_price hi = true -> fle lo hi ->
  PrimFloat.leb 0 (percentChange lo hi) = true.
Proof.
  intros Hlo Hhi Hle.
  destruct (positive_price_valid lo Hlo) as (ml & el & El & Vl).
  destruct (positive_price_valid hi Hhi) as (mh & eh & Eh & Vh).
  assert (K : key_le (1, el, Z.pos ml) (1, eh, Z.pos mh)).
  { apply (fle_keys lo hi); auto; unfold fkey; [rewrite El | rewrite Eh]; reflexivity. }
  rewrite leb_spec. unfold percentChange.
  rewrite mul_spec, div_spec, sub_spec, El, Eh, Prim2SF_100, Prim2SF_0.
  apply signed_false_nonneg, SF64mul_signed, SF64div_signed, SF64sub_signed_ge; auto.
Qed.

(** A sample whose drawdown from a positive peak reaches 30 is priced
    strictly below the peak. *)
Lemma qualifies_below_peak peak d :
  positive_price peak = true -> qualifies peak d = true ->
  flt (PriceData.price d) peak.
Proof.
  intros Hp Hq.
  destruct (positive_price_valid peak Hp) as (mp & ep & Ep & Vp).
  unfold qualifies, JS.geb, drawdown in Hq.
  rewrite leb_spec, mul_spec, div_spec, sub_spec, Ep, Prim2SF_100 in Hq.
  pose proof (Prim2SF_valid (PriceData.price d)) as Vd.
  unfold flt, fkey. rewrite Ep. cbn [sf_key].
  destruct (Prim2SF (PriceData.price d)) as [s|s| |s m e] eqn:Ed.
  - do 2 eexists. repeat split. cbn. lia.
  - destruct s; [|discriminate Hq]. do 2 eexists. repeat split. cbn. lia.
  - discriminate Hq.
  - destruct s.
    + do 2 eexists. repeat split. cbn. lia.
    + do 2 eexists. split; [reflexivity|]. split; [reflexivity|].
      destruct (key_cmp (1, e, Z.pos m) (1, ep, Z.pos mp)) eqn:C.
      * exfalso. apply key_cmp_Eq in C.
        assert (K : key_le (1, ep, Z.pos mp) (1, e, Z.pos m)) by (right; congruence).
        rewrite (signed_true_below_30 _
                   (SF64mul_signed true _ _ _
                      (SF64div_signed true _ _ _
                         (SF64sub_signed_le mp ep m e Vp Vd K)))) in Hq.
        discriminate.
      * apply key_cmp_Lt, C.
      * exfalso. apply key_cmp_Gt in C.
        assert (K : key_le (1, ep, Z.pos mp) (1, e, Z.pos m)) by (left; exact C).
        rewrite (signed_true_below_30 _
                   (SF64mul_signed true _ _ _
                      (SF64div_signed true _ _ _
                         (SF64sub_signed_le mp ep m e Vp Vd K)))) in Hq.
        discriminate.
Qed.

(* ================================================================== *)
(** * The records and the events *)

Lemma find_existsb {A} (f : A -> bool) (l : list A) :
  existsb f l = match find f l with Some _ => true | None => false end.
Proof.
  induction l as [|x l IH]; cbn; [reflexivity|].
  destruct (f x); [reflexivity | exact IH].
Qed.

Lemma analyzeCycle_observed getTime now events data index h :
  match analyzeCycle getTime now events data index h with
  | Some r =>
      observed getTime data h = true /\
      CycleAnalysis.cycle r = HalvingEvent.cycle h /\
      CycleAnalysis.halvingDate r = HalvingEvent.date h
  | None => observed getTime data h = false
  end.
Proof.
  unfold analyzeCycle, observed.
  destruct (getTime (HalvingEvent.date h)) as [T|]; [|reflexivity].
  rewrite find_existsb. destruct (find (nearHalving T) data); cbn; auto.
Qed.

Lemma forEachFrom_observed getTime now events data rest : forall i,
  let out := forEachFrom getTime now events data rest i [] in
  map CycleAnalysis.cycle out
    = map HalvingEvent.cycle (filter (observed getTime data) rest) /\
  map CycleAnalysis.halvingDate out
    = map HalvingEvent.date (filter (observed getTime data) rest).
Proof.
  induction rest as [|h rest IH]; intros i; cbn zeta; [split; reflexivity|].
  rewrite forEachFrom_cons, !map_app. cbn [filter].
  destruct (IH (S i)) as (E1 & E2). rewrite E1, E2.
  pose proof (analyzeCycle_observed getTime now events data i h) as H.
  destruct (analyzeCycle getTime now events data i h) as [r|].
  - destruct H as (-> & Hc & Hd). cbn. rewrite Hc, Hd. split; reflexivity.
  - rewrite H. split; reflexivity.
Qed.

Lemma StronglySorted_filter_map {A} (R : Z -> Z -> Prop) (g : A -> Z)
    (f : A -> bool) (l : list A) :
  StronglySorted R (map g l) -> StronglySorted R (map g (filter f l)).
Proof.
  induction l as [|x l IH]; cbn; intros H; [constructor|].
  inversion H as [|? ? Hs Hall]; subst.
  destruct (f x); cbn; auto.
  constructor; auto.
  rewrite Forall_forall in *. intros y Hy. apply Hall.
  rewrite in_map_iff in *. destruct Hy as (z & <- & Hz).
  exists z. split; auto. apply (proj1 (filter_In f z l) Hz).
Qed.

(** X1: the records come in the order of the events, one for each event
    that has a readable date and a sample within a day of it, with the
    cycle number and the date of that event; an ascending list of events
    gives ascending records. *)
Theorem records_follow_the_events getTime now events data :
  let out := analyzeHalvingCyclesOn getTime now events data in
  map CycleAnalysis.cycle out
    = map HalvingEvent.cycle (filter (observed getTime data) events) /\
  map CycleAnalysis.halvingDate out
    = map HalvingEvent.date (filter (observed getTime data) events) /\
  (StronglySorted Z.lt (map HalvingEvent.cycle events) ->
   StronglySorted Z.lt (map CycleAnalysis.cycle out)).
Proof.
  cbn zeta. unfold analyzeHalvingCyclesOn.
  destruct (forEachFrom_observed getTime now events data events 0) as (E1 & E2).
  split; [exact E1|]. split; [exact E2|].
  rewrite E1. apply StronglySorted_filter_map.
Qed.

(** An instance of X1: the configured events are in ascending order. *)
Lemma records_follow_the_events_witness :
  StronglySorted Z.lt (map HalvingEvent.cycle HALVING_EVENTS) /\
  StronglySorted Z.lt
    (map CycleAnalysis.cycle
       (analyzeHalvingCyclesOn IsoDate.parse Scenario.now0 HALVING_EVENTS
          Scenario.rise_and_fall)).
Proof.
  assert (H : StronglySorted Z.lt (map HalvingEvent.cycle HALVING_EVENTS)).
  { cbn. repeat (constructor; [| repeat constructor; reflexivity]). constructor. }
  split; [exact H|].
  apply (proj2 (proj2 (records_follow_the_events IsoDate.parse Scenario.now0
                         HALVING_EVENTS Scenario.rise_and_fall))), H.
Defined.

(** X10: the halving price of a record is the price of the first sample of
    the series, in its order, that lies within a day of the event: every
    sample before it is a day or more away, however close a later one is. *)
Theorem halving_price_is_of_the_first_sample_within_a_day
    getTime now events data r :
  In r (analyzeHalvingCyclesOn getTime now events data) ->
  exists index halving T hpd before after,
    analyzedAt getTime now events data index halving T hpd r /\
    data = before ++ hpd :: after /\
    (forall x, In x before -> DAY <= Z.abs (PriceData.timestamp x - T)) /\
    Z.abs (PriceData.timestamp hpd - T) < DAY /\
    Pre.halvingPrice (CycleAnalysis.preHalvingData r) = PriceData.price hpd.
Proof.
  intros Hin.
  destruct (produced_inv _ _ _ _ _ Hin) as (index & halving & T & hpd & Hat).
  pose proof Hat as (Hn & HT & HF & ->).
  destruct (find_first _ _ _ HF) as (before & after & Hsplit & Hb & Hd).
  exists index, halving, T, hpd, before, after.
  split; [exact Hat|]. split; [exact Hsplit|]. split; [| split].
  - intros x Hx. rewrite Forall_forall in Hb. specialize (Hb x Hx).
    unfold nearHalving in Hb. apply Z.ltb_ge in Hb. exact Hb.
  - unfold nearHalving in Hd. apply Z.ltb_lt in Hd. exact Hd.
  - reflexivity.
Qed.

(** An instance of X10: the series that rises, peaks and falls. *)
Lemma halving_price_is_of_the_first_sample_within_a_day_witness :
  In Scenario.rise_record
     (analyzeHalvingCyclesOn IsoDate.parse Scenario.now0 HALVING_EVENTS Scenario.rise_and_fall) /\
  exists hpd before after,
    Scenario.rise_and_fall = before ++ hpd :: after /\
    Pre.halvingPrice (CycleAnalysis.preHalvingData Scenario.rise_record)
      = PriceData.price hpd.
Proof.
  assert (H1 : In Scenario.rise_record
     (analyzeHalvingCyclesOn IsoDate.parse Scenario.now0 HALVING_EVENTS Scenario.rise_and_fall))
    by (vm_compute; left; reflexivity).
  split; [exact H1|].
  destruct (halving_price_is_of_the_first_sample_within_a_day IsoDate.parse Scenario.now0
              HALVING_EVENTS Scenario.rise_and_fall Scenario.rise_record H1)
    as (i & h & T & hpd & before & after & _ & Hs & _ & _ & Hp).
  exists hpd, before, after. split; [exact Hs | exact Hp].
Defined.

(* ================================================================== *)
(** * The analysis and the chart *)

Lemma filter_filter_sub {A} (f g : A -> bool) (l : list A) :
  (forall x, In x l -> f x = true -> g x = true) ->
  filter f (filter g l) = filter f l.
Proof.
  induction l as [|x l IH]; cbn; intros H; [reflexivity|].
  assert (IH' : filter f (filter g l) = filter f l)
    by (apply IH; intros y Hy; apply H; right; exact Hy).
  destruct (g x) eqn:G; cbn.
  - rewrite IH'. reflexivity.
  - destruct (f x) eqn:F; [| exact IH'].
    rewrite (H x (or_introl eq_refl) F) in G. discriminate.
Qed.

Lemma find_filter_sub {A} (f g : A -> bool) (l : list A) :
  (forall x, In x l -> f x = true -> g x = true) ->
  find f (filter g l) = find f l.
Proof.
  induction l as [|x l IH]; cbn; intros H; [reflexivity|].
  assert (IH' : find f (filter g l) = find f l)
    by (apply IH; intros y Hy; apply H; right; exact Hy).
  destruct (g x) eqn:G; cbn.
  - rewrite IH'. reflexivity.
  - destruct (f x) eqn:F; [| exact IH'].
    rewrite (H x (or_introl eq_refl) F) in G. discriminate.
Qed.

Lemma nearHalving_inChart T d : nearHalving T d = true -> inChart T d = true.
Proof.
  unfold nearHalving. rewrite Z.ltb_lt, inChart_spec. unfold DAY. intros H. lia.
Qed.

Lemma inPre_inChart T d : inPre T d = true -> inChart T d = true.
Proof. rewrite inPre_spec, inChart_spec. unfold DAY. intros H. lia. Qed.

Lemma analysisEnd_le getTime now events index T e :
  analysisEnd getTime now events index T = Some e -> e <= T + 550 * DAY.
Proof.
  unfold analysisEnd, postHalvingEnd, JS.min2.
  destruct (nextHalvingTimestamp getTime now events index); [|discriminate].
  intros [= <-]. apply Z.le_min_l.
Qed.

Lemma inPost_inChart getTime now events index T d :
  inPost T (analysisEnd getTime now events index T) d = true -> inChart T d = true.
Proof.
  destruct (analysisEnd getTime now events index T) as [e|] eqn:E; [|discriminate].
  apply analysisEnd_le in E. rewrite inPost_spec, inChart_spec. unfold DAY in *.
  intros H. lia.
Qed.

(** The record of an event reads the series only inside the chart window. *)
Lemma analyzeCycle_inChart getTime now events data index halving T :
  getTime (HalvingEvent.date halving) = Some T ->
  analyzeCycle getTime now events (filter (inChart T) data) index halving
  = analyzeCycle getTime now events data index halving.
Proof.
  intros HT. unfold analyzeCycle. rewrite HT.
  rewrite find_filter_sub by (intros x _; apply nearHalving_inChart).
  destruct (find (nearHalving T) data) as [hpd|]; [|reflexivity].
  unfold preAnalysis, preHalvingData, postHalvingData.
  rewrite !filter_filter_sub
    by (intros x _; first [apply inPre_inChart | apply inPost_inChart]).
  reflexivity.
Qed.

(** X2: the record of a cycle computed from the chart data of that cycle
    is the record computed from the whole series: the analysis of an event
    reads no sample outside [T - 365 days, T + 550 days]. *)
Theorem cycle_record_needs_only_its_chart_data getTime now events data index halving :
  find (fun h => HalvingEvent.cycle h =? HalvingEvent.cycle halving) events
    = Some halving ->
  analyzeCycle getTime now events
    (getFilteredDataOn getTime events (cycleNo (HalvingEvent.cycle halving)) data)
    index halving
  = analyzeCycle getTime now events data index halving.
Proof.
  intros Hf. unfold getFilteredDataOn. rewrite Hf.
  destruct (getTime (HalvingEvent.date halving)) as [T|] eqn:HT.
  - apply analyzeCycle_inChart, HT.
  - unfold analyzeCycle. rewrite HT. reflexivity.
Qed.

(** An instance of X2: the first configured cycle. *)
Lemma cycle_record_needs_only_its_chart_data_witness :
  analyzeCycle IsoDate.parse Scenario.now0 HALVING_EVENTS
    (getFilteredData IsoDate.parse (cycleNo 1) Scenario.rise_and_fall)
    0 (HalvingEvent.mk "2012-11-28" 210000 1)
  = analyzeCycle IsoDate.parse Scenario.now0 HALVING_EVENTS Scenario.rise_and_fall
      0 (HalvingEvent.mk "2012-11-28" 210000 1).
Proof.
  apply (cycle_record_needs_only_its_chart_data IsoDate.parse Scenario.now0
           HALVING_EVENTS Scenario.rise_and_fall 0 (HalvingEvent.mk "2012-11-28" 210000 1)).
  reflexivity.
Defined.

(** X3: for a cycle number that no event carries, the chart gets the whole
    series. *)
Theorem chart_of_an_unknown_cycle_is_the_series getTime events n priceData :
  (forall h, In h events -> HalvingEvent.cycle h <> n) ->
  getFilteredDataOn getTime events (cycleNo n) priceData = priceData.
Proof.
  intros H. unfold getFilteredDataOn.
  rewrite find_none_all; [reflexivity|].
  intros h Hh. apply Z.eqb_neq, H, Hh.
Qed.

(** An instance of X3: there is no cycle 5. *)
Lemma chart_of_an_unknown_cycle_is_the_series_witness :
  getFilteredData IsoDate.parse (cycleNo 5) Scenario.rise_and_fall = Scenario.rise_and_fall.
Proof.
  apply (chart_of_an_unknown_cycle_is_the_series IsoDate.parse HALVING_EVENTS 5).
  intros h Hh. cbn in Hh.
  repeat (destruct Hh as [<- | Hh]; [discriminate|]). destruct Hh.
Defined.

(** X4: the charts of two different configured cycles share no sample. *)
Theorem charts_of_different_cycles_are_disjoint getTime priceData i j hi hj d :
  (forall h, In h HALVING_EVENTS ->
             getTime (HalvingEvent.date h) = IsoDate.parse (HalvingEvent.date h)) ->
  nth_error HALVING_EVENTS i = Some hi ->
  nth_error HALVING_EVENTS j = Some hj ->
  i <> j ->
  In d (getFilteredData getTime (cycleNo (HalvingEvent.cycle hi)) priceData) ->
  In d (getFilteredData getTime (cycleNo (HalvingEvent.cycle hj)) priceData) ->
  False.
Proof.
  intros Hiso Hi Hj Hne. revert d.
  assert (G1 : getTime "2012-11-28"%string = Some 1354060800000)
    by (apply (Hiso (HalvingEvent.mk "2012-11-28" 210000 1)); cbn; tauto).
  assert (G2 : getTime "2016-07-09"%string = Some 1468022400000)
    by (apply (Hiso (HalvingEvent.mk "2016-07-09" 420000 2)); cbn; tauto).
  assert (G3 : getTime "2020-05-11"%string = Some 1589155200000)
    by (apply (Hiso (HalvingEvent.mk "2020-05-11" 630000 3)); cbn; tauto).
  assert (G4 : getTime "2024-04-20"%string = Some 1713571200000)
    by (apply (Hiso (HalvingEvent.mk "2024-04-20" 840000 4)); cbn; tauto).
  destruct (HALVING_EVENTS_nth i hi Hi)
    as [(-> & ->) | [(-> & ->) | [(-> & ->) | (-> & ->)]]];
  destruct (HALVING_EVENTS_nth j hj Hj)
    as [(-> & ->) | [(-> & ->) | [(-> & ->) | (-> & ->)]]];
  try congruence; intros d;
  unfold getFilteredData, getFilteredDataOn;
  cbn [find HALVING_EVENTS HalvingEvent.cycle HalvingEvent.date Z.eqb Pos.eqb];
  rewrite ?G1, ?G2, ?G3, ?G4;
  rewrite !filter_In, !inChart_spec; unfold DAY; intros (_ & H1) (_ & H2); lia.
Qed.

(** An instance of X4: the halving-day sample of the first cycle is in the
    first cycle's chart and not in the second's. *)
Lemma charts_of_different_cycles_are_disjoint_witness :
  In (PriceData.mk "2012-11-28" 200 Scenario.T1)
     (getFilteredData IsoDate.parse (cycleNo 1) Scenario.rise_and_fall) /\
  ~ In (PriceData.mk "2012-11-28" 200 Scenario.T1)
       (getFilteredData IsoDate.parse (cycleNo 2) Scenario.rise_and_fall).
Proof.
  assert (H1 : In (PriceData.mk "2012-11-28" 200 Scenario.T1)
                 (getFilteredData IsoDate.parse (cycleNo 1) Scenario.rise_and_fall))
    by (vm_compute; right; left; reflexivity).
  split; [exact H1|]. intros H2.
  apply (charts_of_different_cycles_are_disjoint IsoDate.parse Scenario.rise_and_fall
           0%nat 1%nat (HalvingEvent.mk "2012-11-28" 210000 1)
           (HalvingEvent.mk "2016-07-09" 420000 2)
           (PriceData.mk "2012-11-28" 200 Scenario.T1)
           (fun h _ => eq_refl) eq_refl eq_refl); [discriminate | exact H1 | exact H2].
Defined.

(** X5: the two windows of an event share no sample; the halving-day
    sample, when it is not dated after the event, is in the pre-event
    window; so an empty pre-event window means a halving-day sample dated
    after the event. *)
Theorem windows_are_disjoint getTime now events data index T :
  (forall d, In d (preHalvingData T data) ->
             In d (postHalvingData getTime now events index T data) -> False) /\
  (forall hpd, find (nearHalving T) data = Some hpd ->
               PriceData.timestamp hpd <= T -> In hpd (preHalvingData T data)) /\
  (forall hpd, find (nearHalving T) data = Some hpd ->
               preHalvingData T data = [] -> T < PriceData.timestamp hpd).
Proof.
  assert (Hin : forall hpd, find (nearHalving T) data = Some hpd ->
               PriceData.timestamp hpd <= T -> In hpd (preHalvingData T data)).
  { intros hpd HF Hle. destruct (find_some _ _ HF) as (Hd & Hn).
    unfold preHalvingData. rewrite filter_In, inPre_spec.
    unfold nearHalving in Hn. apply Z.ltb_lt in Hn. unfold DAY in *. split; [exact Hd | lia]. }
  split; [| split; [exact Hin|]].
  - intros d Hpre Hpost. unfold preHalvingData, postHalvingData in *.
    rewrite filter_In in Hpre, Hpost. destruct Hpre as (_ & Hpre), Hpost as (_ & Hpost).
    apply inPre_spec in Hpre.
    destruct (analysisEnd getTime now events index T) as [e|]; [|discriminate].
    apply inPost_spec in Hpost. lia.
  - intros hpd HF Hempty.
    destruct (Z_le_gt_dec (PriceData.timestamp hpd) T) as [Hle | Hgt]; [| lia].
    specialize (Hin hpd HF Hle). rewrite Hempty in Hin. destruct Hin.
Qed.

(** An instance of X5: the series that starts an hour after the event. *)
Lemma windows_are_disjoint_witness :
  preHalvingData Scenario.T1 Scenario.late_start = [] /\
  Scenario.T1 < Scenario.T1 + 3600000.
Proof.
  split; [reflexivity|].
  apply (proj2 (proj2 (windows_are_disjoint IsoDate.parse Scenario.now0 HALVING_EVENTS
                         Scenario.late_start 0 Scenario.T1))
           (PriceData.mk "2012-11-28" 100 (Scenario.T1 + 3600000)));
    reflexivity.
Defined.

(* ================================================================== *)
(** * Signs of the reported figures *)

(** The peak of a priced window over a positive seed is a positive price. *)
Lemma findPeak_positive halving hp post :
  positive_price hp = true ->
  Forall (fun d => positive_price (PriceData.price d) = true) post ->
  positive_price (peakPrice (findPeak halving hp post)) = true /\
  fle hp (peakPrice (findPeak halving hp post)).
Proof.
  intros Hhp Hpost. unfold findPeak.
  set (seed := mkPeak hp (HalvingEvent.date halving) 0).
  assert (Hseed : comparable (peakPrice seed))
    by (apply positive_price_comparable, Hhp).
  assert (Hcmp : Forall (fun d => comparable (PriceData.price d)) post).
  { rewrite Forall_forall in *. intros d Hd. apply positive_price_comparable, Hpost, Hd. }
  split; [| apply (peakScan_ge post 0 seed Hseed Hcmp)].
  destruct (peakScan_first post 0 seed Hseed Hcmp)
    as [(-> & _) | (before & d & after & Hsplit & -> & _)].
  - exact Hhp.
  - cbn. rewrite Forall_forall in Hpost. apply Hpost. rewrite Hsplit.
    apply in_or_app. right. left. reflexivity.
Qed.

Lemma priced_post getTime now events index T data :
  priced data ->
  Forall (fun d => positive_price (PriceData.price d) = true)
         (postHalvingData getTime now events index T data).
Proof.
  intros H. apply Forall_forall. intros d Hd. apply H.
  apply (proj1 (filter_In _ d data) Hd).
Qed.

(** X6: with positive prices, the gain from the halving price to the peak
    is never negative. *)
Theorem gain_to_peak_is_not_negative getTime now events data r :
  In r (analyzeHalvingCyclesOn getTime now events data) ->
  priced data ->
  PrimFloat.leb 0 (Post.percentageGain (CycleAnalysis.postHalvingData r)) = true.
Proof.
  intros Hin Hpriced.
  destruct (produced_inv _ _ _ _ _ Hin) as (index & halving & T & hpd & Hat).
  destruct Hat as (Hn & HT & HF & ->).
  cbn [CycleAnalysis.postHalvingData postAnalysis Post.percentageGain].
  assert (Hhp : positive_price (PriceData.price hpd) = true)
    by (apply Hpriced; apply (find_some _ _ HF)).
  destruct (findPeak_positive halving (PriceData.price hpd)
              (postHalvingData getTime now events index T data) Hhp
              (priced_post getTime now events index T data Hpriced)) as (Hpos & Hle).
  apply percentChange_nonneg; assumption.
Qed.

(** An instance of X6: the series that rises, peaks and falls. *)
Lemma gain_to_peak_is_not_negative_witness :
  priced Scenario.rise_and_fall /\
  PrimFloat.leb 0 (Post.percentageGain (CycleAnalysis.postHalvingData Scenario.rise_record))
    = true.
Proof.
  assert (H1 : In Scenario.rise_record
     (analyzeHalvingCyclesOn IsoDate.parse Scenario.now0 HALVING_EVENTS Scenario.rise_and_fall))
    by (vm_compute; left; reflexivity).
  assert (H2 : priced Scenario.rise_and_fall).
  { intros d H. cbn in H.
    repeat (destruct H as [<- | H]; [vm_compute; reflexivity|]). destruct H. }
  split; [exact H2|].
  apply (gain_to_peak_is_not_negative IsoDate.parse Scenario.now0 HALVING_EVENTS
           Scenario.rise_and_fall Scenario.rise_record H1 H2).
Defined.

(** X7: with positive prices, a reported crash price is strictly below the
    peak price, and it is the price of a sample of the post-event window. *)
Theorem crash_price_is_below_the_peak getTime now events data r c :
  In r (analyzeHalvingCyclesOn getTime now events data) ->
  priced data ->
  Post.crashPrice (CycleAnalysis.postHalvingData r) = Some c ->
  PrimFloat.ltb c (Post.peakPrice (CycleAnalysis.postHalvingData r)) = true /\
  exists d, In d data /\ PriceData.price d = c.
Proof.
  intros Hin Hpriced.
  destruct (produced_inv _ _ _ _ _ Hin) as (index & halving & T & hpd & Hat).
  destruct Hat as (Hn & HT & HF & ->).
  set (post := postHalvingData getTime now events index T data).
  set (pk := findPeak halving (PriceData.price hpd) post).
  destruct (post_crash_fields getTime halving T hpd post) as (_ & Ep & Epk & _).
  cbn [CycleAnalysis.postHalvingData]. rewrite Ep, Epk. fold pk.
  assert (Hhp : positive_price (PriceData.price hpd) = true)
    by (apply Hpriced; apply (find_some _ _ HF)).
  destruct (findPeak_positive halving (PriceData.price hpd) post Hhp
              (priced_post getTime now events index T data Hpriced)) as (Hpos & _).
  fold pk in Hpos.
  destruct (crashScan_outcome (peakPrice pk) (peakIndex pk) post)
    as [(_ & Hp & _) | (d & Hind & Hq & _ & Hp)]; rewrite Hp; [discriminate|].
  intros [= <-]. split.
  - apply ltb_flt. apply qualifies_below_peak; assumption.
  - exists d. split; [| reflexivity].
    apply (proj1 (filter_In (inPost T (analysisEnd getTime now events index T)) d data)).
    apply (In_skipn (peakIndex pk)). exact Hind.
Qed.

(** An instance of X7: the series that rises, peaks and falls. *)
Lemma crash_price_is_below_the_peak_witness :
  priced Scenario.rise_and_fall /\
  PrimFloat.ltb 650 (Post.peakPrice (CycleAnalysis.postHalvingData Scenario.rise_record))
    = true.
Proof.
  assert (H1 : In Scenario.rise_record
     (analyzeHalvingCyclesOn IsoDate.parse Scenario.now0 HALVING_EVENTS Scenario.rise_and_fall))
    by (vm_compute; left; reflexivity).
  assert (H2 : priced Scenario.rise_and_fall).
  { intros d H. cbn in H.
    repeat (destruct H as [<- | H]; [vm_compute; reflexivity|]). destruct H. }
  split; [exact H2|].
  apply (crash_price_is_below_the_peak IsoDate.parse Scenario.now0 HALVING_EVENTS
           Scenario.rise_and_fall Scenario.rise_record 650%float H1 H2 eq_refl).
Defined.

(* ================================================================== *)
(** * The crash paragraphs of a card *)

(** X8: whenever a card shows its crash paragraphs, the record has a crash
    price, so [crashPrice!] reads a number; and with dated samples every
    recorded crash is shown. *)
Theorem crash_paragraphs_have_their_price getTime now events data r :
  In r (analyzeHalvingCyclesOn getTime now events data) ->
  (showsCrash r = true ->
   exists c, Post.crashPrice (CycleAnalysis.postHalvingData r) = Some c) /\
  (dated data ->
   Post.crashDate (CycleAnalysis.postHalvingData r) <> None -> showsCrash r = true).
Proof.
  intros Hin.
  destruct (produced_inv _ _ _ _ _ Hin) as (index & halving & T & hpd & Hat).
  destruct Hat as (Hn & HT & HF & ->). unfold showsCrash.
  set (post := postHalvingData getTime now events index T data).
  set (pk := findPeak halving (PriceData.price hpd) post).
  destruct (post_crash_fields getTime halving T hpd post) as (Ed & Ep & _).
  cbn [CycleAnalysis.postHalvingData]. rewrite Ed, Ep. fold pk.
  destruct (crashScan_outcome (peakPrice pk) (peakIndex pk) post)
    as [(Hd & Hp & _) | (d & Hind & Hq & Hd & Hp)]; rewrite Hd, Hp.
  - split; [discriminate | congruence].
  - split; [eauto|]. intros Hdated _. cbn.
    assert (Hne : PriceData.date d <> EmptyString).
    { apply Hdated.
      apply (proj1 (filter_In (inPost T (analysisEnd getTime now events index T)) d data)).
      apply (In_skipn (peakIndex pk)). exact Hind. }
    destruct (PriceData.date d); [congruence | reflexivity].
Qed.

(** An instance of X8: the series that rises, peaks and falls. *)
Lemma crash_paragraphs_have_their_price_witness :
  showsCrash Scenario.rise_record = true /\
  exists c, Post.crashPrice (CycleAnalysis.postHalvingData Scenario.rise_record) = Some c.
Proof.
  assert (H1 : In Scenario.rise_record
     (analyzeHalvingCyclesOn IsoDate.parse Scenario.now0 HALVING_EVENTS Scenario.rise_and_fall))
    by (vm_compute; left; reflexivity).
  split; [reflexivity|].
  apply (proj1 (crash_paragraphs_have_their_price IsoDate.parse Scenario.now0
                  HALVING_EVENTS Scenario.rise_and_fall Scenario.rise_record H1)).
  reflexivity.
Defined.

(* ================================================================== *)
(** * The clock *)

Lemma analysisEnd_closed getTime now events index T :
  T + 550 * DAY <= now ->
  analysisEnd getTime now events index T =
    match nth_error events (S index) with
    | Some next =>
        if JS.truthy_str (HalvingEvent.date next)
        then JS.min2 (Some (T + 550 * DAY)) (getTime (HalvingEvent.date next))
        else Some (T + 550 * DAY)
    | None => Some (T + 550 * DAY)
    end.
Proof.
  intros H. unfold analysisEnd, nextHalvingTimestamp, postHalvingEnd, JS.min2.
  destruct (nth_error events (S index)) as [next|].
  - destruct (JS.truthy_str (HalvingEvent.date next)).
    + destruct (getTime (HalvingEvent.date next)) as [n|]; [f_equal; lia | reflexivity].
    + f_equal. lia.
  - f_equal. lia.
Qed.

Lemma analyzeCycle_closed getTime now1 now2 events data index halving :
  (forall T, getTime (HalvingEvent.date halving) = Some T ->
             T + 550 * DAY <= now1 /\ T + 550 * DAY <= now2) ->
  analyzeCycle getTime now1 events data index halving
  = analyzeCycle getTime now2 events data index halving.
Proof.
  intros H. unfold analyzeCycle.
  destruct (getTime (HalvingEvent.date halving)) as [T|]; [|reflexivity].
  destruct (H T eq_refl) as (H1 & H2).
  unfold postHalvingData.
  rewrite (analysisEnd_closed getTime now1 events index T H1),
          (analysisEnd_closed getTime now2 events index T H2).
  reflexivity.
Qed.

Lemma forEachFrom_closed getTime now1 now2 events data rest : forall i acc,
  (forall h T, In h rest -> getTime (HalvingEvent.date h) = Some T ->
               T + 550 * DAY <= now1 /\ T + 550 * DAY <= now2) ->
  forEachFrom getTime now1 events data rest i acc
  = forEachFrom getTime now2 events data rest i acc.
Proof.
  induction rest as [|h rest IH]; intros i acc H; cbn; [reflexivity|].
  rewrite (analyzeCycle_closed getTime now1 now2 events data i h)
    by (intros T; apply H; left; reflexivity).
  apply IH. intros h' T Hh'. apply H. right. exact Hh'.
Qed.

(** X9: once 550 days have passed since every event, the result no longer
    depends on the clock: two readings past that point give the same
    records. *)
Theorem records_of_closed_windows_ignore_the_clock getTime now1 now2 events data :
  (forall h T, In h events -> getTime (HalvingEvent.date h) = Some T ->
               T + 550 * DAY <= now1 /\ T + 550 * DAY <= now2) ->
  analyzeHalvingCyclesOn getTime now1 events data
  = analyzeHalvingCyclesOn getTime now2 events data.
Proof.
  intros H. unfold analyzeHalvingCyclesOn. apply forEachFrom_closed, H.
Qed.

(** An instance of X9: the configured events, read in November 2025 and a
    day later. *)
Lemma records_of_closed_windows_ignore_the_clock_witness :
  analyzeHalvingCycles IsoDate.parse Scenario.now0 Scenario.rise_and_fall
  = analyzeHalvingCycles IsoDate.parse (Scenario.now0 + DAY) Scenario.rise_and_fall.
Proof.
  apply (records_of_closed_windows_ignore_the_clock IsoDate.parse Scenario.now0
           (Scenario.now0 + DAY) HALVING_EVENTS Scenario.rise_and_fall).
  intros h T Hh HT. cbn in Hh.
  repeat (destruct Hh as [<- | Hh];
          [vm_compute in HT; injection HT as <-; split; vm_compute; discriminate|]).
  destruct Hh.
Defined.

(* ================================================================== *)
(** * The start of the year before *)

Lemma positive_price_not_zero p :
  positive_price p = true -> PrimFloat.eqb p 0 = false.
Proof.
  intros H. destruct (positive_price_finite p H) as (m & e & E).
  rewrite eqb_spec, E, Prim2SF_0. reflexivity.
Qed.

(** X11: with positive prices, the start price of a record is the price of
    the first sample of the pre-event window, and is not zero; the
    fallbacks, a start price of 0 and the halving date as start date, are
    those of an empty window only. *)
Theorem start_price_is_zero_for_an_empty_window_only getTime now events data r :
  In r (analyzeHalvingCyclesOn getTime now events data) ->
  priced data ->
  exists index halving T hpd,
    analyzedAt getTime now events data index halving T hpd r /\
    let pre := CycleAnalysis.preHalvingData r in
    match preHalvingData T data with
    | [] =>
        Pre.startPrice pre = 0%float /\
        Pre.startDate pre = HalvingEvent.date halving
    | d :: _ =>
        Pre.startPrice pre = PriceData.price d /\
        PrimFloat.eqb (Pre.startPrice pre) 0 = false /\
        (PriceData.date d <> EmptyString -> Pre.startDate pre = PriceData.date d)
    end.
Proof.
  intros Hin Hpriced.
  destruct (produced_inv _ _ _ _ _ Hin) as (index & halving & T & hpd & Hat).
  exists index, halving, T, hpd. split; [exact Hat|].
  destruct Hat as (Hn & HT & HF & ->).
  cbn [CycleAnalysis.preHalvingData preAnalysis Pre.startPrice Pre.startDate].
  cbn zeta.
  destruct (preHalvingData T data) as [|d rest] eqn:E; cbn [hd_error option_map].
  - split; reflexivity.
  - assert (Hd : positive_price (PriceData.price d) = true).
    { apply Hpriced. apply (proj1 (filter_In (inPre T) d data)).
      unfold preHalvingData in E. rewrite E. left. reflexivity. }
    unfold JS.or_num, JS.or_str. rewrite (positive_price_truthy _ Hd).
    split; [reflexivity|]. split; [apply positive_price_not_zero, Hd|].
    intros Hne. destruct (PriceData.date d); [congruence | reflexivity].
Qed.

(** An instance of X11: the series that rises, peaks and falls. *)
Lemma start_price_is_zero_for_an_empty_window_only_witness :
  priced Scenario.rise_and_fall /\
  exists index halving T hpd,
    analyzedAt IsoDate.parse Scenario.now0 HALVING_EVENTS Scenario.rise_and_fall
      index halving T hpd Scenario.rise_record.
Proof.
  assert (H1 : In Scenario.rise_record
     (analyzeHalvingCyclesOn IsoDate.parse Scenario.now0 HALVING_EVENTS Scenario.rise_and_fall))
    by (vm_compute; left; reflexivity).
  assert (H2 : priced Scenario.rise_and_fall).
  { intros d H. cbn in H.
    repeat (destruct H as [<- | H]; [vm_compute; reflexivity|]). destruct H. }
  split; [exact H2|].
  destruct (start_price_is_zero_for_an_empty_window_only IsoDate.parse Scenario.now0
              HALVING_EVENTS Scenario.rise_and_fall Scenario.rise_record H1 H2)
    as (i & h & T & hpd & Hat & _).
  exists i, h, T, hpd. exact Hat.
Defined.

(* ================================================================== *)
(** * The bounds of the chart *)

(** C8, as the claim states it, fails while a cycle is open: 100 days after
    the fourth event the post-event window ends at [now], and the chart of
    the fourth cycle still holds the sample dated 150 days after the
    event. *)
Lemma chart_bound_counterexample :
  analysisEnd IsoDate.parse OpenCycle.now100 HALVING_EVENTS 3 OpenCycle.T4
    = Some OpenCycle.now100 /\
  ~ (forall d,
       In d (getFilteredData IsoDate.parse (cycleNo 4) OpenCycle.series) <->
       In d OpenCycle.series /\
       OpenCycle.T4 - 365 * DAY <= PriceData.timestamp d <= OpenCycle.now100).
Proof.
  split; [reflexivity|].
  intros H. destruct (proj1 (H OpenCycle.ahead)) as (_ & _ & Hle).
  - vm_compute. right. left. reflexivity.
  - vm_compute in Hle. apply Hle. reflexivity.
Qed.

(** C8, amended: with nothing selected the chart gets the series itself;
    with a configured cycle selected it gets exactly the samples of the
    series, in their order, with [T - 365 days <= timestamp <= T + 550
    days], [T] being the time of the cycle's event: the upper bound is the
    550 days themselves, whatever the next event and the clock are, and
    the samples of the cycle's two windows are all among them. *)
Theorem chart_data_is_the_series_within_550_days getTime now priceData :
  getFilteredData getTime all priceData = priceData /\
  forall index halving T,
    nth_error HALVING_EVENTS index = Some halving ->
    getTime (HalvingEvent.date halving) = Some T ->
    let chart := getFilteredData getTime (cycleNo (HalvingEvent.cycle halving)) priceData in
    (exists keep,
       chart = filter keep priceData /\
       forall d, keep d = true <->
                 T - 365 * DAY <= PriceData.timestamp d <= T + 550 * DAY) /\
    (forall d, In d chart <->
               In d priceData /\
               T - 365 * DAY <= PriceData.timestamp d <= T + 550 * DAY) /\
    (forall d, In d (preHalvingData T priceData) \/
               In d (postHalvingData getTime now HALVING_EVENTS index T priceData) ->
               In d chart).
Proof.
  split; [reflexivity|].
  intros index halving T Hn HT. cbn zeta.
  assert (E : getFilteredData getTime (cycleNo (HalvingEvent.cycle halving)) priceData
              = filter (inChart T) priceData).
  { unfold getFilteredData, getFilteredDataOn.
    destruct (HALVING_EVENTS_nth index halving Hn)
      as [(-> & ->) | [(-> & ->) | [(-> & ->) | (-> & ->)]]];
      cbn [find HALVING_EVENTS HalvingEvent.cycle Z.eqb Pos.eqb];
      rewrite HT; reflexivity. }
  rewrite E. split; [| split].
  - exists (inChart T). split; [reflexivity | apply inChart_spec].
  - intros d. rewrite filter_In, inChart_spec. tauto.
  - intros d [Hd | Hd]; unfold preHalvingData, postHalvingData in Hd;
      apply filter_In in Hd; destruct Hd as (Hin & Hk); apply filter_In; split; auto.
    + apply inPre_inChart, Hk.
    + apply (inPost_inChart getTime now HALVING_EVENTS index), Hk.
Qed.

(** An instance of C8: the fourth cycle while it is open; its chart holds
    the sample ahead of the clock. *)
Lemma chart_data_is_the_series_within_550_days_witness :
  getFilteredData IsoDate.parse (cycleNo 4) OpenCycle.series = OpenCycle.series /\
  In OpenCycle.ahead (getFilteredData IsoDate.parse (cycleNo 4) OpenCycle.series).
Proof.
  split; [reflexivity|].
  destruct (proj2 (chart_data_is_the_series_within_550_days IsoDate.parse
                     OpenCycle.now100 OpenCycle.series)
              3%nat (HalvingEvent.mk "2024-04-20" 840000 4) OpenCycle.T4 eq_refl eq_refl)
    as (_ & H & _).
  apply H. split; [right; left; reflexivity | vm_compute; split; discriminate].
Defined.
